(** * GroveCoder: cost ledger, admission check, upstream client, request broker

    A shallow embedding of [grove_coder/database.py], [grove_coder/deepseek.py],
    [grove_coder/server.py] and [grove_coder/config.py].

    - Python floats are IEEE binary64 values: Rocq's primitive [float];
      [round(x, 6)] and the division of two integers are modelled to the
      last bit.
    - Exceptions are values of [exn]; a function that may raise returns a
      [result]; code that touches the store or the network runs in the
      state-and-exception monad [M] over a [world] that holds the ledger
      rows and the chronological list of store and network events.
    - The ledger is developed over an arbitrary column arithmetic [arith]
      (SQLite's and Python's summation of REAL values), instantiated at
      binary64 for the broker.
    - What the code cannot decide is supplied by an [env]: the standard
      library's JSON decoder, the clocks, the reply of the upstream API.
      The store may refuse writes ([writable]), and an INSERT fails on
      a value that cannot be bound or stored; reads do not fail.
    - Tool arguments carry the JSON types of the tool schemas (strings,
      and a list of strings for [focus_areas]); any key may be missing. *)

From Stdlib Require Import ZArith NArith List String Ascii Bool Lia Floats.
From Stdlib Require Import DecimalString.
From Stdlib Require Import Sorted Permutation.
Import ListNotations.

#[local] Set Warnings "-inexact-float,-register-all".
#[local] Open Scope string_scope.
#[local] Open Scope list_scope.
#[local] Open Scope Z_scope.

(* ================================================================= *)
(** ** Python runtime: exceptions, results, the effect monad *)

(** The exception classes that the modelled code raises or meets.
    [JSONDecodeError] is a subclass of [ValueError]; [OperationalError],
    [IntegrityError] and [ProgrammingError] are those of [sqlite3]. *)
Inductive exn : Type :=
| ValueError (msg : string)
| JSONDecodeError (msg : string)
| RuntimeError (msg : string)
| KeyError (key : string)
| IndexError
| TypeError
| AttributeError
| ZeroDivisionError
| OverflowError
| OperationalError (msg : string)
| IntegrityError (msg : string)
| ProgrammingError (msg : string).

Inductive result (A : Type) : Type :=
| Return (a : A)
| Raise (e : exn).
Arguments Return {A} a.
Arguments Raise {A} e.

Definition rbind {A B} (r : result A) (k : A -> result B) : result B :=
  match r with
  | Return a => k a
  | Raise e => Raise e
  end.

(** A computation over a mutable state [S]: the state reached when an
    exception is raised is kept, as in Python. *)
Definition M (S A : Type) : Type := S -> result A * S.

Definition ret {S A} (a : A) : M S A := fun s => (Return a, s).
Definition raise {S A} (e : exn) : M S A := fun s => (Raise e, s).
Definition bind {S A B} (c : M S A) (k : A -> M S B) : M S B :=
  fun s => match c s with
           | (Return a, s') => k a s'
           | (Raise e, s') => (Raise e, s')
           end.
Definition lift {S A} (r : result A) : M S A := fun s => (r, s).

(** [try: c / except E as e: h e], where [handles e] is [Some x] exactly
    when [e] is an instance of one of the classes of the clause. *)
Definition try_except {S A X} (c : M S A) (handles : exn -> option X)
    (h : X -> M S A) : M S A :=
  fun s => match c s with
           | (Return a, s') => (Return a, s')
           | (Raise e, s') =>
               match handles e with
               | Some x => h x s'
               | None => (Raise e, s')
               end
           end.

Declare Scope monad_scope.
Delimit Scope monad_scope with monad.
Notation "x <- c ;; k" := (bind c (fun x => k))
  (at level 61, c at next level, right associativity) : monad_scope.
Notation "c ;;; k" := (bind c (fun _ => k))
  (at level 61, right associativity) : monad_scope.
Notation "x <~ r ;; k" := (rbind r (fun x => k))
  (at level 61, r at next level, right associativity) : monad_scope.
#[local] Open Scope monad_scope.

(** [except (ValueError, RuntimeError) as e], yielding [str(e)]. *)
Definition ValueError_or_RuntimeError (e : exn) : option string :=
  match e with
  | ValueError msg | JSONDecodeError msg | RuntimeError msg => Some msg
  | _ => None
  end.

(* ================================================================= *)
(** ** Python values *)

(** What [json.loads] produces. *)
Inductive value : Type :=
| VNone
| VBool (b : bool)
| VInt (n : Z)
| VFloat (x : float)
| VStr (s : string)
| VList (l : list value)
| VDict (d : list (string * value)).

(** A dict with string keys, in insertion order. *)
Definition dict (A : Type) : Type := list (string * A).

Fixpoint dict_lookup {A} (d : dict A) (key : string) : option A :=
  match d with
  | [] => None
  | (k, v) :: d' => if String.eqb k key then Some v else dict_lookup d' key
  end.

(** [d.get(key, default)] *)
Definition dict_get {A} (d : dict A) (key : string) (default : A) : A :=
  match dict_lookup d key with
  | Some v => v
  | None => default
  end.

(** [v[key]] with a string key. *)
Definition subscript_str (v : value) (key : string) : result value :=
  match v with
  | VDict d =>
      match dict_lookup d key with
      | Some x => Return x
      | None => Raise (KeyError key)
      end
  | _ => Raise TypeError
  end.

(** [v[0]] *)
Definition subscript_0 (v : value) : result value :=
  match v with
  | VList [] => Raise IndexError
  | VList (x :: _) => Return x
  | VStr EmptyString => Raise IndexError
  | VStr (String c _) => Return (VStr (String c EmptyString))
  | VDict _ => Raise (KeyError "0")
  | _ => Raise TypeError
  end.

(** [v.get(key, default)]: only dicts have the method. *)
Definition method_get (v : value) (key : string) (default : value) : result value :=
  match v with
  | VDict d => Return (dict_get d key default)
  | _ => Raise AttributeError
  end.

Definition nl : string := String (ascii_of_nat 10) EmptyString.

(** [", ".join(xs)] and the like. *)
Definition join (sep : string) (xs : list string) : string := String.concat sep xs.

(** [str(n)] for an integer. *)
Definition str_int (n : Z) : string := NilZero.string_of_int (Z.to_int n).

(** [len(s)]: a character of a Python string is one character of the
    model's strings. *)
Definition len (s : string) : Z := Z.of_nat (String.length s).

(* ================================================================= *)
(** ** Binary64 arithmetic as Python performs it *)

(** Nearest integer to [m * 2^e], ties to even. *)
Definition round_half_even_scaled (m e : Z) : Z :=
  if 0 <=? e then m * 2 ^ e
  else
    let d := 2 ^ (- e) in
    let q := m / d in
    match (2 * (m mod d)) ?= d with
    | Lt => q
    | Gt => q + 1
    | Eq => if Z.even q then q else q + 1
    end.

(** [round(x, 6)] on a float: the exact binary value of [x] is rounded
    half-to-even to a multiple of 10^-6, and the result is the double
    nearest to that decimal; NaN and the infinities round to themselves,
    and the sign of a zero result is the sign of [x]. *)
Definition py_round6 (x : float) : float :=
  match Prim2SF x with
  | S754_finite s m e =>
      match round_half_even_scaled (Zpos m * 1000000) e with
      | Zpos n =>
          SF2Prim (SFdiv prec emax (S754_finite s n 0) (S754_finite false 1000000 0))
      | _ => if s then neg_zero else zero
      end
  | _ => x
  end.

(** [float(n)] for an integer that a double holds exactly. *)
Definition float_of_int (n : Z) : float :=
  if 0 <=? n then of_uint63 (Uint63.of_Z n)
  else PrimFloat.opp (of_uint63 (Uint63.of_Z (- n))).

Definition exact_in_double (n : Z) : bool := Z.abs n <=? 2 ^ 53.

Definition SF_of_int (n : Z) : spec_float :=
  match n with
  | Z0 => S754_zero false
  | Zpos p => S754_finite false p 0
  | Zneg p => S754_finite true p 0
  end.

(** [a / b] on two integers: the correctly rounded quotient.  When both
    operands convert to double exactly this is the division of the two
    doubles; otherwise the quotient is rounded once from the integers,
    and a quotient beyond the double range raises [OverflowError]. *)
Definition int_truediv (a b : Z) : result float :=
  if b =? 0 then Raise ZeroDivisionError
  else if exact_in_double a && exact_in_double b
       then Return (float_of_int a / float_of_int b)%float
       else
         let q := SF2Prim (SFdiv prec emax (SF_of_int a) (SF_of_int b)) in
         if is_infinity q then Raise OverflowError else Return q.

(** [v / b] for a decoded JSON value [v] and an integer constant [b]. *)
Definition truediv_int (v : value) (b : Z) : result float :=
  match v with
  | VInt n => int_truediv n b
  | VBool t => int_truediv (if t then 1 else 0) b
  | VFloat x => if b =? 0 then Raise ZeroDivisionError
                else Return (x / float_of_int b)%float
  | _ => Raise TypeError
  end.

(* ================================================================= *)
(** ** deepseek.py: the parts of the upstream client that run locally *)

(** Max input sizes to prevent abuse and runaway costs. *)
Definition MAX_CODE_LENGTH : Z := 100000.
Definition MAX_DESCRIPTION_LENGTH : Z := 10000.

(** Tool arguments, typed as the tool schemas declare them: every
    property is a string but [focus_areas], an array of strings.  Any key
    may be missing. *)
Record arguments : Type := {
  strings : dict string;
  focus_areas : option (list string)
}.

(** [arguments.get(key, "")] and [arguments.get(key)] on a string property. *)
Definition arg_get (a : arguments) (key : string) (default : string) : string :=
  dict_get (strings a) key default.
Definition arg_lookup (a : arguments) (key : string) : option string :=
  dict_lookup (strings a) key.

(** [arguments[key]] *)
Definition arg_item (a : arguments) (key : string) : result string :=
  match arg_lookup a key with
  | Some v => Return v
  | None => Raise (KeyError key)
  end.

(** Truth value of a string, and of an optional one ([None] is false). *)
Definition truthy (s : string) : bool := negb (String.eqb s "").
Definition truthy_opt (o : option string) : bool :=
  match o with
  | Some s => truthy s
  | None => false
  end.

(** One of the two loops of [_validate_inputs]: the first key, in order,
    whose value is longer than [limit] raises. *)
Fixpoint validate_keys (a : arguments) (keys : list string) (limit : Z) : result unit :=
  match keys with
  | [] => Return tt
  | key :: rest =>
      let value := arg_get a key "" in
      if truthy value && (limit <? len value)
      then Raise (ValueError (key ++ " exceeds maximum length of "
                                  ++ str_int limit ++ " characters")%string)
      else validate_keys a rest limit
  end.

Definition code_keys : list string := ["code"; "original_code"; "context"].
Definition description_keys : list string := ["task_description"; "change_request"].

Definition _validate_inputs (a : arguments) (tool_name : string) : result unit :=
  _ <~ validate_keys a code_keys MAX_CODE_LENGTH ;;
  validate_keys a description_keys MAX_DESCRIPTION_LENGTH.

(** The system prompts are fixed templates of the source; the model keeps
    which template is instantiated and with what. *)
Inductive system_prompt : Type :=
| GENERATE_SYSTEM_PROMPT (language : string)
| EDIT_SYSTEM_PROMPT
| REVIEW_SYSTEM_PROMPT (focus_areas : string)
| helpful_coding_assistant.

Definition _get_system_prompt (tool_name : string) (a : arguments) : system_prompt :=
  if String.eqb tool_name "generate_code" then
    GENERATE_SYSTEM_PROMPT (arg_get a "language" "python")
  else if String.eqb tool_name "edit_code" then
    EDIT_SYSTEM_PROMPT
  else if String.eqb tool_name "review_code" then
    let focus := match focus_areas a with
                 | Some f => f
                 | None => ["performance"; "security"; "readability"]
                 end in
    REVIEW_SYSTEM_PROMPT (join ", " focus)
  else helpful_coding_assistant.

Definition fence : string := "```".

(** [_build_user_prompt]; the last branch, [json.dumps(arguments)], is
    kept as the arguments themselves. *)
Inductive user_prompt : Type :=
| prompt_text (text : string)
| prompt_dumps (a : arguments).

Definition _build_user_prompt (a : arguments) (tool_name : string) : result user_prompt :=
  if String.eqb tool_name "generate_code" then
    task <~ arg_item a "task_description" ;;
    let parts := ["Task: " ++ task]%string in
    let parts := parts ++ ["Language: " ++ arg_get a "language" "python"]%string in
    let parts := if truthy_opt (arg_lookup a "file_path")
                 then parts ++ ["Target file: " ++ arg_get a "file_path" ""]%string
                 else parts in
    let parts := if truthy_opt (arg_lookup a "context")
                 then parts ++ ["Context:" ++ nl ++ arg_get a "context" ""]%string
                 else parts in
    Return (prompt_text (join nl parts))
  else if String.eqb tool_name "edit_code" then
    original <~ arg_item a "original_code" ;;
    let parts := ["Original code:" ++ nl ++ fence ++ nl ++ original ++ nl ++ fence]%string in
    change <~ arg_item a "change_request" ;;
    let parts := parts ++ ["Change request: " ++ change]%string in
    let parts := parts ++ ["Language: " ++ arg_get a "language" "python"]%string in
    let parts := if truthy_opt (arg_lookup a "file_path")
                 then parts ++ ["File: " ++ arg_get a "file_path" ""]%string
                 else parts in
    Return (prompt_text (join nl parts))
  else if String.eqb tool_name "review_code" then
    code <~ arg_item a "code" ;;
    let parts := ["Code to review:" ++ nl ++ fence ++ nl ++ code ++ nl ++ fence]%string in
    let parts := match focus_areas a with
                 | Some (f :: fs) => parts ++ ["Focus on: " ++ join ", " (f :: fs)]%string
                 | _ => parts
                 end in
    Return (prompt_text (join nl parts))
  else Return (prompt_dumps a).

(** The client object: what [__init__] captures from the secrets. *)
Record DeepSeekClient : Type := {
  api_key : string;
  model : string;
  zdr : bool;
  providers : list string
}.

(** The JSON body posted to [/chat/completions]. *)
Record payload : Type := {
  payload_model : string;
  payload_system : system_prompt;
  payload_user : user_prompt;
  payload_response_format : string;
  payload_provider_order : list string;
  payload_require_zdr : bool;
  payload_reasoning : bool
}.

Definition build_payload (self : DeepSeekClient) (sp : system_prompt)
    (up : user_prompt) (tool_name : string) : payload :=
  {| payload_model := model self;
     payload_system := sp;
     payload_user := up;
     payload_response_format := "json_object";
     payload_provider_order := providers self;
     payload_require_zdr := zdr self;
     (* Enable reasoning mode for code review *)
     payload_reasoning := String.eqb tool_name "review_code" |}.

(** Pricing: Input $0.25/M tokens, Output $0.38/M tokens. *)
Definition _calculate_cost (usage : value) : result float :=
  input_tokens <~ method_get usage "prompt_tokens" (VInt 0) ;;
  output_tokens <~ method_get usage "completion_tokens" (VInt 0) ;;
  input_m <~ truediv_int input_tokens 1000000 ;;
  let input_cost := (input_m * 0.25)%float in
  output_m <~ truediv_int output_tokens 1000000 ;;
  let output_cost := (output_m * 0.38)%float in
  Return (py_round6 (input_cost + output_cost)%float).

(** The formula of the specification, on integer token counts:
    [round(inputTokens/1e6 * 0.25 + outputTokens/1e6 * 0.38, 6)]. *)
Definition spec_cost (inputTokens outputTokens : Z) : float :=
  py_round6 (float_of_int inputTokens / 1e6 * 0.25
             + float_of_int outputTokens / 1e6 * 0.38)%float.

(* ================================================================= *)
(** ** database.py: the cost ledger *)

(** The arithmetic of the REAL column [cost_usd]: zero, addition (SQLite's
    SUM and Python's [sum]), [round(x, 6)] and [<]; the values that
    SQLite takes for NULL, which the NOT NULL column refuses, and what
    the column keeps of the others. *)
Record arith : Type := {
  num : Type;
  nzero : num;
  nadd : num -> num -> num;
  nround6 : num -> num;
  nlt : num -> num -> bool;
  nnull : num -> bool;
  nstore : num -> num
}.

(** The arithmetic the program runs on: sums are plain left-to-right
    binary64 additions.  Python's [sum] starts from the integer 0 and
    [round(0, 6)] is the integer 0: both are the number zero, here [0.0].
    SQLite binds NaN as NULL, and keeps a REAL of integral value as an
    integer, which costs a zero its sign: [-0.0] is read back as [0.0],
    every other value as it was. *)
Definition binary64 : arith :=
  {| num := float;
     nzero := 0%float;
     nadd := PrimFloat.add;
     nround6 := py_round6;
     nlt := PrimFloat.ltb;
     nnull := fun x => negb (PrimFloat.eqb x x);
     nstore := fun x => if PrimFloat.eqb x 0 then 0%float else x |}.

(** What the code does to the outside world, in chronological order:
    a SELECT on the store, an INSERT on the store, a POST to the
    upstream API. *)
Inductive event : Type :=
| StoreQuery (start_date : Z) (tool_filter : option string)
| StoreInsert (tool_name : string)
| UpstreamPost (body : payload).

Definition VALID_PERIODS : list string := ["today"; "week"; "month"; "all"].

Definition seconds_per_day : Z := 86400.

(** [date(timestamp)]: the calendar day, as a day number since the epoch. *)
Definition date_of (timestamp : N) : Z := Z.of_N timestamp / seconds_per_day.

(** What [sqlite3] (Python 3.11) binds to the [index]-th parameter of a
    statement: None, an int of 64 bits (a bool is an int), a float, a
    str. *)
Definition bind_parameter (index : Z) (v : value) : result unit :=
  let unsupported type_name :=
    Raise (ProgrammingError ("Error binding parameter " ++ str_int index
                               ++ ": type '" ++ type_name
                               ++ "' is not supported")%string) in
  match v with
  | VInt n =>
      if (- 2 ^ 63 <=? n) && (n <? 2 ^ 63) then Return tt
      else Raise OverflowError
  | VList _ => unsupported "list"
  | VDict _ => unsupported "dict"
  | _ => Return tt
  end.

Section Ledger.

Context (A : arith).

(** A row of table [requests].  Timestamps are seconds since the epoch
    (the text form YYYY-MM-DD HH:MM:SS orders the same way).  The token
    columns hold the values as they were bound; no query reads them. *)
Record request : Type := {
  id : N;
  timestamp : N;
  tool_name : string;
  cost_usd : num A;
  input_tokens : value;
  output_tokens : value;
  file_path : option string
}.

(** The store and the event log.  [writable] is false when the store
    refuses writes (read-only file, full disk). *)
Record world : Type := {
  rows : list request;
  writable : bool;
  events : list event
}.

(** The same store, with [evs] appended to the event log. *)
Definition add_events (w : world) (evs : list event) : world :=
  {| rows := rows w; writable := writable w; events := events w ++ evs |}.

Definition emit (e : event) : M world unit :=
  fun w => (Return tt, add_events w [e]).

(** [log_request]: one INSERT; id and timestamp are assigned by the
    store ([utc_now] is CURRENT_TIMESTAMP).  The INSERT fails when the
    store refuses writes, when a token count cannot be bound, and when
    the cost is NULL to SQLite; a failed INSERT leaves no row.  The
    refusal of the store is looked at first: a store that refuses writes
    answers with its own error whatever the arguments (there, [sqlite3]
    would reject a parameter that it cannot bind before the store is
    asked). *)
Definition log_request (utc_now : N) (tool : string) (cost : num A)
    (tokens : dict value) (path : option string) : M world unit :=
  let input := dict_get tokens "input" (VInt 0) in
  let output := dict_get tokens "output" (VInt 0) in
  emit (StoreInsert tool) ;;;
  fun w =>
    if writable w then
      match rbind (bind_parameter 3 input)
                  (fun _ => bind_parameter 4 output) with
      | Raise e => (Raise e, w)
      | Return _ =>
          if nnull A cost then
            (Raise (IntegrityError
                      "NOT NULL constraint failed: requests.cost_usd"), w)
          else
            (Return tt,
             {| rows := rows w ++
                        [ {| id := N.of_nat (List.length (rows w)) + 1;
                             timestamp := utc_now;
                             tool_name := tool;
                             cost_usd := nstore A cost;
                             input_tokens := input;
                             output_tokens := output;
                             file_path := path |} ];
                writable := writable w;
                events := events w |})
      end
    else (Raise (OperationalError "attempt to write a readonly database"), w).

(** A sequence of calls of [log_request], as the broker issues them
    over time. *)
Record logged_call : Type := {
  call_time : N;
  call_tool : string;
  call_cost : num A;
  call_tokens : dict value;
  call_path : option string
}.

Fixpoint log_all (calls : list logged_call) : M world unit :=
  match calls with
  | [] => ret tt
  | c :: rest =>
      log_request (call_time c) (call_tool c) (call_cost c)
                  (call_tokens c) (call_path c) ;;;
      log_all rest
  end.

(** One row of the SELECT: date, tool_name, COUNT, SUM(cost_usd). *)
Record sql_row : Type := {
  row_date : Z;
  row_tool : string;
  row_requests : Z;
  row_cost : num A
}.

(** WHERE timestamp >= ? [AND tool_name = ?] *)
Definition selected (start_date : Z) (tool_filter : option string)
    (r : request) : bool :=
  (start_date <=? Z.of_N (timestamp r))
  && match tool_filter with
     | Some t => String.eqb (tool_name r) t
     | None => true
     end.

Definition same_group (g : sql_row) (r : request) : bool :=
  (row_date g =? date_of (timestamp r)) && String.eqb (row_tool g) (tool_name r).

(** GROUP BY date(timestamp), tool_name: a row joins its group, or
    opens one; SUM accumulates from zero. *)
Fixpoint group_insert (r : request) (gs : list sql_row) : list sql_row :=
  match gs with
  | [] => [ {| row_date := date_of (timestamp r);
               row_tool := tool_name r;
               row_requests := 1;
               row_cost := nadd A (nzero A) (cost_usd r) |} ]
  | g :: gs' =>
      if same_group g r
      then {| row_date := row_date g;
              row_tool := row_tool g;
              row_requests := row_requests g + 1;
              row_cost := nadd A (row_cost g) (cost_usd r) |} :: gs'
      else g :: group_insert r gs'
  end.

Definition group_by (rs : list request) : list sql_row :=
  fold_left (fun gs r => group_insert r gs) rs [].

(** The place of [g] before [h] in the result: a later day first; the
    groups of one day by tool name, in the byte order of SQLite's BINARY
    collation. *)
Definition comes_first (g h : sql_row) : bool :=
  (row_date h <? row_date g)
  || ((row_date h =? row_date g) && String.leb (row_tool g) (row_tool h)).

(** ORDER BY date DESC.  The query leaves the order of the groups of one
    day open; SQLite returns them as its GROUP BY has sorted them, by
    tool name. *)
Fixpoint insert_desc (g : sql_row) (sorted : list sql_row) : list sql_row :=
  match sorted with
  | [] => [g]
  | h :: t => if comes_first g h then g :: h :: t
              else h :: insert_desc g t
  end.

Definition order_by_date_desc (gs : list sql_row) : list sql_row :=
  fold_right insert_desc [] gs.

Definition fetchall (rs : list request) (start_date : Z)
    (tool_filter : option string) : list sql_row :=
  order_by_date_desc (group_by (filter (selected start_date tool_filter) rs)).

Record breakdown_entry : Type := {
  entry_date : Z;
  entry_tool : string;
  entry_requests : Z;
  entry_cost_usd : num A
}.

Record report : Type := {
  total_requests : Z;
  total_cost_usd : num A;
  breakdown : list breakdown_entry
}.

(** The start of the window, from the local clock [now]. *)
Definition start_date_of (now : Z) (period : string) : Z :=
  if String.eqb period "today" then (now / seconds_per_day) * seconds_per_day
  else if String.eqb period "week" then now - 7 * seconds_per_day
  else if String.eqb period "month" then now - 30 * seconds_per_day
  else 0.

(** The report dict built from the fetched rows. *)
Definition build_report (fetched : list sql_row) : report :=
  let total_cost := fold_left (nadd A) (map row_cost fetched) (nzero A) in
  let total_requests := fold_left Z.add (map row_requests fetched) 0 in
  {| total_requests := total_requests;
     total_cost_usd := nround6 A total_cost;
     breakdown :=
       map (fun row => {| entry_date := row_date row;
                          entry_tool := row_tool row;
                          entry_requests := row_requests row;
                          entry_cost_usd := nround6 A (row_cost row) |})
           fetched |}.

(** [if tool_filter:] an absent or empty filter does not filter. *)
Definition effective_filter (tool_filter : option string) : option string :=
  if truthy_opt tool_filter then tool_filter else None.

Definition get_report (now : Z) (period : string)
    (tool_filter : option string) : M world report :=
  if negb (existsb (String.eqb period) VALID_PERIODS) then
    let valid := join ", " VALID_PERIODS in
    raise (ValueError ("Invalid period '" ++ period
                         ++ "'. Must be one of: " ++ valid)%string)
  else
    let start_date := start_date_of now period in
    let tool_filter := effective_filter tool_filter in
    emit (StoreQuery start_date tool_filter) ;;;
    fun w => (Return (build_report (fetchall (rows w) start_date tool_filter)), w).

(** Returns True if under limit, False if limit exceeded. *)
Definition check_cost_limit (now : Z) (period : string)
    (limit_usd : num A) : M world bool :=
  report <- get_report now period None ;;
  ret (nlt A (total_cost_usd report) limit_usd).

(** The aggregated spend of a window ([totalSpend(window)] in the
    specification): the total cost of the window's unfiltered report. *)
Definition totalSpend (w : world) (now : Z) (period : string) : num A :=
  total_cost_usd
    (build_report (fetchall (rows w) (start_date_of now period) None)).

End Ledger.

Arguments id {A} _.
Arguments timestamp {A} _.
Arguments tool_name {A} _.
Arguments cost_usd {A} _.
Arguments input_tokens {A} _.
Arguments output_tokens {A} _.
Arguments file_path {A} _.
Arguments rows {A} _.
Arguments writable {A} _.
Arguments events {A} _.
Arguments row_date {A} _.
Arguments row_tool {A} _.
Arguments row_requests {A} _.
Arguments row_cost {A} _.
Arguments total_requests {A} _.
Arguments total_cost_usd {A} _.
Arguments breakdown {A} _.
Arguments add_events {A} w evs.
Arguments call_time {A} _.
Arguments call_tool {A} _.
Arguments call_cost {A} _.
Arguments call_tokens {A} _.
Arguments call_path {A} _.
Arguments log_all {A} calls _.
Arguments totalSpend {A} w now period.
Arguments emit {A} e _.
Arguments log_request {A} utc_now tool cost tokens path _.
Arguments get_report {A} now period tool_filter _.
Arguments check_cost_limit {A} now period limit_usd _.
Arguments fetchall {A} rs start_date tool_filter.
Arguments build_report {A} fetched.
Arguments group_by {A} rs.
Arguments group_insert {A} r gs.
Arguments order_by_date_desc {A} gs.
Arguments insert_desc {A} g sorted.
Arguments comes_first {A} g h.
Arguments selected {A} start_date tool_filter r.
Arguments same_group {A} g r.

(* ================================================================= *)
(** ** deepseek.py: the call to the upstream API *)

(** What the network does with the POST: no response at all
    ([httpx.RequestError]), or a response with a status and a body. *)
Inductive http_reply : Type :=
| NoResponse
| Response (status_code : Z) (text : string).

(** What surrounds one tool call: the JSON decoder of the standard
    library ([inl] the decoded value, [inr] the message of the
    [JSONDecodeError]), the local clock of [datetime.now()] and the UTC
    clock of CURRENT_TIMESTAMP, both in whole seconds and read once per
    tool call, and the upstream's reply. *)
Record env : Type := {
  json_loads : string -> value + string;
  local_now : Z;
  utc_now : N;
  reply : http_reply
}.

(** [json.loads(v)]: the argument must be text. *)
Definition loads (E : env) (v : value) : result value :=
  match v with
  | VStr s =>
      match json_loads E s with
      | inl x => Return x
      | inr msg => Raise (JSONDecodeError msg)
      end
  | _ => Raise TypeError
  end.

(** [response.raise_for_status()]: 2xx passes. *)
Definition is_success (status_code : Z) : bool :=
  (200 <=? status_code) && (status_code <=? 299).

(** The two [except] clauses around the POST. *)
Definition post (E : env) : result string :=
  match reply E with
  | Response status_code text =>
      if is_success status_code then Return text
      else Raise (RuntimeError ("OpenRouter API returned " ++ str_int status_code)%string)
  | NoResponse => Raise (RuntimeError "Failed to connect to OpenRouter API")
  end.

(** [except (KeyError, IndexError, json.JSONDecodeError)] *)
Definition malformed (e : exn) : bool :=
  match e with
  | KeyError _ | IndexError | JSONDecodeError _ => true
  | _ => false
  end.

(** [data["choices"][0]["message"]["content"]] *)
Definition raw_content_of (data : value) : result value :=
  choices <~ subscript_str data "choices" ;;
  choice <~ subscript_0 choices ;;
  message <~ subscript_str choice "message" ;;
  subscript_str message "content".

(** The [try] block that extracts and decodes the model's content. *)
Definition extract_content (E : env) (data : value) : result value :=
  let attempt :=
    raw_content <~ raw_content_of data ;;
    loads E raw_content in
  match attempt with
  | Return content => Return content
  | Raise e =>
      if malformed e
      then Raise (RuntimeError "DeepSeek returned an unparseable response")
      else Raise e
  end.

(** The dict that [call] returns. *)
Record call_result : Type := {
  result_code : value;
  result_explanation : value;
  result_suggestions : value;
  result_cost_usd : float;
  result_tokens_used : dict value
}.

(** Everything after the POST: decode the body, extract the content,
    price the usage, build the result. *)
Definition handle_response (E : env) (text : string) : result call_result :=
  data <~ loads E (VStr text) ;;
  content <~ extract_content E data ;;
  usage <~ method_get data "usage" (VDict []) ;;
  cost <~ _calculate_cost usage ;;
  code <~ method_get content "code" (VStr "") ;;
  explanation <~ method_get content "explanation" (VStr "") ;;
  suggestions <~ method_get content "suggestions" (VList []) ;;
  input <~ method_get usage "prompt_tokens" (VInt 0) ;;
  output <~ method_get usage "completion_tokens" (VInt 0) ;;
  Return {| result_code := code;
            result_explanation := explanation;
            result_suggestions := suggestions;
            result_cost_usd := cost;
            result_tokens_used := [("input", input); ("output", output)] |}.

Definition World : Type := world binary64.

(** Send a request to DeepSeek via OpenRouter and return structured results. *)
Definition call (E : env) (self : DeepSeekClient) (a : arguments)
    (tool : string) : M World call_result :=
  lift (_validate_inputs a tool) ;;;
  let system_prompt := _get_system_prompt tool a in
  user_prompt <- lift (_build_user_prompt a tool) ;;
  emit (UpstreamPost (build_payload self system_prompt user_prompt tool)) ;;;
  text <- lift (post E) ;;
  lift (handle_response E text).

(* ================================================================= *)
(** ** config.py and server.py: the request broker *)

(** The pre-resolved configuration. *)
Record Secrets : Type := {
  openrouter_api_key : option string;
  worker_model : option string;
  zdr_enabled : option bool;
  preferred_providers : option (list string);
  cost_limits : option (dict float)
}.

(** [DeepSeekClient.__init__] *)
Definition new_DeepSeekClient (secrets : Secrets) : result DeepSeekClient :=
  match openrouter_api_key secrets with
  | Some key =>
      if truthy key then
        Return {| api_key := key;
                  model := match worker_model secrets with
                           | Some m => m
                           | None => "deepseek/deepseek-v3.2"
                           end;
                  zdr := match zdr_enabled secrets with
                         | Some z => z
                         | None => true
                         end;
                  providers := match preferred_providers secrets with
                               | Some p => p
                               | None => []
                               end |}
      else Raise (ValueError "openrouter_api_key is required in secrets")
  | None => Raise (ValueError "openrouter_api_key is required in secrets")
  end.

Record GroveCoderServer : Type := {
  secrets : Secrets;
  deepseek : DeepSeekClient
}.

(** The object handed to [json.dumps] for the text of a response. *)
Inductive json_text : Type :=
| dumps_error (error : string)
| dumps_limit (error : string) (limit_usd : float)
| dumps_result (r : call_result)
| dumps_report (r : report binary64).

Record TextContent : Type := {
  type : string;
  text : json_text
}.

(** One property of a tool's input schema. *)
Record property : Type := {
  property_name : string;
  property_type : string;
  property_enum : option (list string)
}.

Record Tool : Type := {
  name : string;
  description : string;
  properties : list property;
  required : list string
}.

Definition string_property (n : string) : property :=
  {| property_name := n; property_type := "string"; property_enum := None |}.

(** Define the MCP tools exposed by this server. *)
Definition _build_tool_list : list Tool :=
  [ {| name := "generate_code";
       description := "Generate new code using DeepSeek specialist";
       properties := [ string_property "file_path";
                       string_property "task_description";
                       string_property "language";
                       string_property "context" ];
       required := ["task_description"; "language"] |};
    {| name := "edit_code";
       description := "Edit existing code using DeepSeek specialist";
       properties := [ string_property "file_path";
                       string_property "original_code";
                       string_property "change_request";
                       string_property "language" ];
       required := ["original_code"; "change_request"; "language"] |};
    {| name := "review_code";
       description := "Review code for issues using DeepSeek reasoning mode";
       properties := [ string_property "code";
                       {| property_name := "focus_areas";
                          property_type := "array";
                          property_enum := None |} ];
       required := ["code"] |};
    {| name := "get_cost_report";
       description := "Query cost tracking database";
       properties := [ {| property_name := "period";
                          property_type := "string";
                          property_enum := Some ["today"; "week"; "month"; "all"] |};
                       string_property "tool" ];
       required := ["period"] |} ].

Definition text_content (t : json_text) : list TextContent :=
  [ {| type := "text"; text := t |} ].

Definition daily_limit_of (self : GroveCoderServer) : float :=
  let limits := match cost_limits (secrets self) with
                | Some d => d
                | None => []
                end in
  dict_get limits "daily_usd" 10.0%float.

Definition monthly_limit_of (self : GroveCoderServer) : float :=
  let limits := match cost_limits (secrets self) with
                | Some d => d
                | None => []
                end in
  dict_get limits "monthly_usd" 50.0%float.

(** Handle a code generation/edit/review request via DeepSeek. *)
Definition _handle_deepseek_call (E : env) (self : GroveCoderServer)
    (tool : string) (a : arguments) : M World (list TextContent) :=
  (* Check cost limits before making the request *)
  let daily_limit := daily_limit_of self in
  let monthly_limit := monthly_limit_of self in
  daily_ok <- check_cost_limit (A:=binary64) (local_now E) "today" daily_limit ;;
  if negb daily_ok then
    ret (text_content (dumps_limit "Daily cost limit exceeded" daily_limit))
  else
    monthly_ok <- check_cost_limit (A:=binary64) (local_now E) "month" monthly_limit ;;
    if negb monthly_ok then
      ret (text_content (dumps_limit "Monthly cost limit exceeded" monthly_limit))
    else
      outcome <- try_except
                   (result <- call E (deepseek self) a tool ;; ret (inl result))
                   ValueError_or_RuntimeError
                   (fun msg => ret (inr (text_content (dumps_error msg)))) ;;
      match outcome with
      | inr failure => ret failure
      | inl result =>
          (* Log the request *)
          log_request (A:=binary64) (utc_now E) tool (result_cost_usd result)
                      (result_tokens_used result) (arg_lookup a "file_path") ;;;
          ret (text_content (dumps_result result))
      end.

(** Handle a cost report query. *)
Definition _handle_cost_report (E : env) (self : GroveCoderServer)
    (a : arguments) : M World (list TextContent) :=
  let period := arg_get a "period" "today" in
  let tool_filter := arg_lookup a "tool" in
  report <- get_report (A:=binary64) (local_now E) period tool_filter ;;
  ret (text_content (dumps_report report)).

(** Route a tool call to the appropriate handler. *)
Definition _handle_tool_call (E : env) (self : GroveCoderServer)
    (tool : string) (a : arguments) : M World (list TextContent) :=
  if existsb (String.eqb tool) ["generate_code"; "edit_code"; "review_code"] then
    _handle_deepseek_call E self tool a
  else if String.eqb tool "get_cost_report" then
    _handle_cost_report E self a
  else ret (text_content (dumps_error ("Unknown tool: " ++ tool)%string)).

(* ================================================================= *)
(** ** Vocabulary of the statements *)

(** A float that is not below zero: a zero of either sign, a positive
    number, plus infinity, or NaN. *)
Definition not_negative (x : float) : Prop := (x <? 0)%float = false.

Definition sf_not_negative (f : spec_float) : bool :=
  match f with
  | S754_finite true _ _ | S754_infinity true => false
  | _ => true
  end.

(** The sign bit is clear (NaN, which has none, included). *)
Definition sf_sign_clear (f : spec_float) : bool :=
  match f with
  | S754_zero s | S754_infinity s | S754_finite s _ _ => negb s
  | S754_nan => true
  end.

Definition sign_clear (x : float) : Prop := sf_sign_clear (Prim2SF x) = true.

(** A usage block whose token counts are integers and not negative (a
    missing count is 0). *)
Definition usage_well_formed (usage : value) : Prop :=
  exists u i o,
    usage = VDict u
    /\ dict_get u "prompt_tokens" (VInt 0) = VInt i
    /\ dict_get u "completion_tokens" (VInt 0) = VInt o
    /\ 0 <= i /\ 0 <= o.

(** Every cost on the ledger is not negative. *)
Definition costs_not_negative (w : World) : Prop :=
  Forall (fun r : request binary64 => not_negative (cost_usd r)) (rows w).

(** The events of kind POST in a log. *)
Definition is_post (e : event) : bool :=
  match e with
  | UpstreamPost _ => true
  | _ => false
  end.

Definition is_insert (e : event) : bool :=
  match e with
  | StoreInsert _ => true
  | _ => false
  end.


(** The validation error that names a field and its limit. *)
Definition size_error (key : string) (limit : Z) : exn :=
  ValueError (key ++ " exceeds maximum length of "
                  ++ str_int limit ++ " characters")%string.

(** A string of [n] copies of the letter x. *)
Fixpoint xs (n : nat) : string :=
  match n with
  | O => EmptyString
  | S n' => String "x" (xs n')
  end.


(** The INSERT of [log_request] is accepted by a store that takes
    writes: both token counts can be bound and the cost is not NULL to
    SQLite. *)
Definition binds (index : Z) (v : value) : bool :=
  match bind_parameter index v with
  | Return _ => true
  | Raise _ => false
  end.

Definition insert_accepted {A : arith} (cost : num A) (tokens : dict value)
  : bool :=
  binds 3 (dict_get tokens "input" (VInt 0))
  && binds 4 (dict_get tokens "output" (VInt 0))
  && negb (nnull A cost).


Definition group_count {A : arith} (gs : list (sql_row A)) : Z :=
  fold_left Z.add (map row_requests gs) 0.

(** Every SUM of the fetched rows satisfies [P]. *)
Definition costs_in {A : arith} (P : num A -> Prop) (gs : list (sql_row A)) : Prop :=
  Forall (fun g => P (row_cost g)) gs.

(** An exact arithmetic: amounts are whole numbers of 10^-9 USD, addition
    is exact, and [round(x, 6)] rounds half-to-even to a whole number of
    10^-6 USD. *)
Definition nano_usd : arith :=
  {| num := Z;
     nzero := 0;
     nadd := Z.add;
     nround6 := fun n =>
       let q := n / 1000 in
       1000 * match (2 * (n mod 1000)) ?= 1000 with
              | Lt => q
              | Gt => q + 1
              | Eq => if Z.even q then q else q + 1
              end;
     nlt := Z.ltb;
     nnull := fun _ => false;
     nstore := fun n => n |}.

(* ================================================================= *)
(** ** Concrete data: the fixtures of the test suite and sample replies *)

Definition dq : string := String (ascii_of_nat 34) EmptyString.
Definition quoted (s : string) : string := (dq ++ s ++ dq)%string.

(** A decoder known on the texts of [table] only; on a text of the table
    it answers what [json.loads] answers. *)
Definition decoder (table : dict value) : string -> value + string :=
  fun s => match dict_lookup table s with
           | Some v => inl v
           | None => inr "Expecting value: line 1 column 1 (char 0)"
           end.

Definition test_secrets : Secrets :=
  {| openrouter_api_key := Some "sk-or-v1-test";
     worker_model := Some "deepseek/deepseek-v3.2";
     zdr_enabled := Some true;
     preferred_providers := Some ["Together"];
     cost_limits := Some [("daily_usd", 10.0%float); ("monthly_usd", 50.0%float)] |}.

Definition test_client : DeepSeekClient :=
  {| api_key := "sk-or-v1-test";
     model := "deepseek/deepseek-v3.2";
     zdr := true;
     providers := ["Together"] |}.

Definition test_server : GroveCoderServer :=
  {| secrets := test_secrets; deepseek := test_client |}.

(** A server whose daily limit is zero. *)
Definition zero_daily_server : GroveCoderServer :=
  {| secrets :=
       {| openrouter_api_key := Some "sk-or-v1-test";
          worker_model := None;
          zdr_enabled := None;
          preferred_providers := None;
          cost_limits := Some [("daily_usd", 0%float)] |};
     deepseek := test_client |}.

Definition empty_ledger : World :=
  {| rows := []; writable := true; events := [] |}.


(** 2023-11-14 22:13:20, on both clocks. *)
Definition test_now : Z := 1700000000.

(** One request logged earlier the same day, at the given cost. *)
Definition one_request (cost : float) : World :=
  {| rows := [ Build_request binary64 1 1699999000 "generate_code" cost
                 (VInt 1000) (VInt 500) None ];
     writable := true;
     events := [] |}.

(** One request logged twenty days earlier, at the given cost. *)
Definition one_old_request (cost : float) : World :=
  {| rows := [ Build_request binary64 1 1698272000 "generate_code" cost
                 (VInt 1000) (VInt 500) None ];
     writable := true;
     events := [] |}.

Definition generate_args : arguments :=
  {| strings := [("task_description", "greet"); ("language", "python")];
     focus_areas := None |}.

(** The content text [{"code": "print('hi')", "explanation": "A greeting"}]
    and the body that carries it, as in [test_call_success]. *)
Definition good_content_text : string :=
  ("{" ++ quoted "code" ++ ": " ++ quoted "print('hi')" ++ ", "
       ++ quoted "explanation" ++ ": " ++ quoted "A greeting" ++ "}")%string.

Definition good_content : value :=
  VDict [("code", VStr "print('hi')"); ("explanation", VStr "A greeting")].

(** The content text [{"explanation": "no code here"}]. *)
Definition codeless_content_text : string :=
  ("{" ++ quoted "explanation" ++ ": " ++ quoted "no code here" ++ "}")%string.

Definition codeless_content : value :=
  VDict [("explanation", VStr "no code here")].

Definition body_with (content_text : string) : value :=
  VDict [ ("choices", VList [ VDict [ ("message",
                                        VDict [("content", VStr content_text)]) ] ]);
          ("usage", VDict [ ("prompt_tokens", VInt 100);
                            ("completion_tokens", VInt 50) ]) ].

(** The environment in which the upstream answers 200 with a body that
    decodes to [body_with content_text]. *)
Definition env_replying (content_text : string) (content : value) : env :=
  {| json_loads := decoder [("BODY", body_with content_text);
                            (content_text, content)];
     local_now := test_now;
     utc_now := 1700000000;
     reply := Response 200 "BODY" |}.

(** The environment of [test_call_malformed_json]: the body decodes, its
    content, the text [not valid json], does not. *)
Definition env_malformed : env :=
  {| json_loads := decoder [("BODY", body_with "not valid json")];
     local_now := test_now;
     utc_now := 1700000000;
     reply := Response 200 "BODY" |}.


Definition quiet_env : env :=
  {| json_loads := decoder [];
     local_now := test_now;
     utc_now := 1700000000;
     reply := NoResponse |}.

(** Two calls of half a micro-dollar each, on a fresh writable store. *)
Definition two_half_micro_calls : list (logged_call nano_usd) :=
  [ {| call_time := 1699999000; call_tool := "generate_code";
       call_cost := 500 : num nano_usd;
       call_tokens := [("input", VInt 2); ("output", VInt 0)];
       call_path := None |};
    {| call_time := 1700000000; call_tool := "edit_code";
       call_cost := 500 : num nano_usd;
       call_tokens := [("input", VInt 2); ("output", VInt 0)];
       call_path := Some "a.py" |} ].

Definition fresh_store : world nano_usd :=
  {| rows := []; writable := true; events := [] |}.

Definition decade_args : arguments :=
  {| strings := [("period", "decade")]; focus_areas := None |}.

Definition no_args : arguments :=
  {| strings := []; focus_areas := None |}.

(** [test_get_report_with_data]: three logged requests, two tools. *)
Definition test_calls : list (logged_call binary64) :=
  [ {| call_time := 1699999000; call_tool := "generate_code";
       call_cost := 0.01%float : num binary64;
       call_tokens := [("input", VInt 1000); ("output", VInt 500)];
       call_path := None |};
    {| call_time := 1699999001; call_tool := "generate_code";
       call_cost := 0.02%float : num binary64;
       call_tokens := [("input", VInt 2000); ("output", VInt 1000)];
       call_path := None |};
    {| call_time := 1699999002; call_tool := "edit_code";
       call_cost := 0.005%float : num binary64;
       call_tokens := [("input", VInt 300); ("output", VInt 150)];
       call_path := None |} ].

(* ================================================================= *)
(** ** Vocabulary of the reports and of the broker *)



(** The rows that a report of the window of [period] aggregates. *)
Definition window_rows {A : arith} (w : world A) (now : Z) (period : string)
    (tool_filter : option string) : list (request A) :=
  filter (selected (start_date_of now period) (effective_filter tool_filter))
         (rows w).

(** The row that the store makes of the [n]-th call logged (counting
    from 0). *)
Definition stored_row {A : arith} (n : nat) (c : logged_call A) : request A :=
  {| id := N.of_nat n + 1;
     timestamp := call_time c;
     tool_name := call_tool c;
     cost_usd := nstore A (call_cost c);
     input_tokens := dict_get (call_tokens c) "input" (VInt 0);
     output_tokens := dict_get (call_tokens c) "output" (VInt 0);
     file_path := call_path c |}.

Fixpoint stored_rows {A : arith} (n : nat) (calls : list (logged_call A))
    : list (request A) :=
  match calls with
  | [] => []
  | c :: rest => stored_row n c :: stored_rows (S n) rest
  end.








(** The names of the tools that the server lists. *)
Definition TOOL_NAMES : list string := map name _build_tool_list.

(** The events that a tool call adds to the log. *)
Definition new_events (w w' : World) (evs : list event) : Prop :=
  events w' = events w ++ evs.

(** The argument that each tool reads first with [arguments[key]]. *)
Definition first_required (tool key : string) : Prop :=
  (tool = "generate_code" /\ key = "task_description")
  \/ (tool = "edit_code" /\ key = "original_code")
  \/ (tool = "review_code" /\ key = "code").

(** Both admission checks pass on the ledger of [w]. *)
Definition admitted (E : env) (self : GroveCoderServer) (w : World) : Prop :=
  (totalSpend w (local_now E) "today" <? daily_limit_of self)%float = true
  /\ (totalSpend w (local_now E) "month" <? monthly_limit_of self)%float = true.

(** The two store queries of the admission checks. *)
Definition admission_queries (E : env) : list event :=
  [ StoreQuery (start_date_of (local_now E) "today") None;
    StoreQuery (start_date_of (local_now E) "month") None ].

(* ================================================================= *)
(** ** config.py: loading the configuration *)

(** Default configuration values *)
Definition DEFAULTS : dict value :=
  [ ("orchestrator_model", VStr "minimax/minimax-m2");
    ("worker_model", VStr "deepseek/deepseek-v3.2");
    ("zdr_enabled", VBool true);
    ("preferred_providers", VList [VStr "Together"; VStr "Fireworks"]);
    ("cost_limits", VDict [ ("daily_usd", VFloat 10.0);
                            ("monthly_usd", VFloat 50.0) ]) ].

(** [d[key] = v] on a dict: the value is replaced in place, a new key
    goes to the end. *)
Fixpoint dict_set {A} (d : dict A) (key : string) (v : A) : dict A :=
  match d with
  | [] => [(key, v)]
  | (k, x) :: d' =>
      if String.eqb k key then (k, v) :: d' else (k, x) :: dict_set d' key v
  end.

(** [secrets[key] = v]: only a dict takes a string key. *)
Definition setitem (secrets : value) (key : string) (v : value) : result value :=
  match secrets with
  | VDict d => Return (VDict (dict_set d key v))
  | _ => Raise TypeError
  end.

Definition occurs_in (key s : string) : bool :=
  match String.index 0 key s with
  | Some _ => true
  | None => false
  end.

(** [key in secrets]: a key of a dict, an element of a list, a part of
    a string; the other JSON values are not containers. *)
Definition contains (secrets : value) (key : string) : result bool :=
  match secrets with
  | VDict d => Return (match dict_lookup d key with
                       | Some _ => true
                       | None => false
                       end)
  | VList l => Return (existsb (fun v => match v with
                                         | VStr s => String.eqb s key
                                         | _ => false
                                         end) l)
  | VStr s => Return (occurs_in key s)
  | _ => Raise TypeError
  end.

(** The two variables [load_secrets] reads with [os.getenv]. *)
Record environ : Type := {
  OPENROUTER_API_KEY : option string;
  GROVE_CODER_WORKER_MODEL : option string
}.

(** The file at [secrets_path]: absent, or what [json.load] makes of it
    (a value, or the message of its decoding error). *)
Definition secrets_file : Type := option (value + string).

(** [if var: secrets[key] = var] *)
Definition override (var : option string) (key : string) (secrets : value)
  : result value :=
  match var with
  | Some s => if truthy s then setitem secrets key (VStr s) else Return secrets
  | None => Return secrets
  end.

(** [for key, default in DEFAULTS.items(): if key not in secrets: ...] *)
Fixpoint apply_defaults (defaults : dict value) (secrets : value) : result value :=
  match defaults with
  | [] => Return secrets
  | (key, default) :: rest =>
      present <~ contains secrets key ;;
      secrets <~ (if present then Return secrets
                  else setitem secrets key default) ;;
      apply_defaults rest secrets
  end.

(** Load secrets from secrets.json or environment variables. *)
Definition load_secrets (file : secrets_file) (env : environ) : result value :=
  (* Load from file if it exists *)
  secrets <~ match file with
             | Some (inl v) => Return v
             | Some (inr msg) => Raise (JSONDecodeError msg)
             | None => Return (VDict [])
             end ;;
  (* Environment variables override file values *)
  secrets <~ override (OPENROUTER_API_KEY env) "openrouter_api_key" secrets ;;
  secrets <~ override (GROVE_CODER_WORKER_MODEL env) "worker_model" secrets ;;
  (* Apply defaults for non-sensitive config *)
  apply_defaults DEFAULTS secrets.

(** What the environment says about a key of the configuration. *)
Definition environ_value (env : environ) (key : string) : option value :=
  let var := if String.eqb key "openrouter_api_key" then OPENROUTER_API_KEY env
             else if String.eqb key "worker_model"
                  then GROVE_CODER_WORKER_MODEL env
                  else None in
  match var with
  | Some s => if truthy s then Some (VStr s) else None
  | None => None
  end.

(** The first of the options that holds a value. *)
Definition or_else {A} (o1 o2 : option A) : option A :=
  match o1 with
  | Some v => Some v
  | None => o2
  end.

(** The object of the file, empty when there is no file. *)
Definition file_object (file : secrets_file) : option (dict value) :=
  match file with
  | None => Some []
  | Some (inl (VDict d)) => Some d
  | _ => None
  end.

Definition not_a_container (v : value) : bool :=
  match v with
  | VNone | VBool _ | VInt _ | VFloat _ => true
  | _ => false
  end.

(* ================================================================= *)
(** ** Concrete data: replies, tools and configuration files *)

(** Upstream answers 500. *)
Definition env_status_500 : env :=
  {| json_loads := decoder [];
     local_now := test_now;
     utc_now := 1700000000;
     reply := Response 500 "Internal Server Error" |}.

(** Upstream answers 200 with a body that is not JSON. *)
Definition env_plain_text : env :=
  {| json_loads := decoder [];
     local_now := test_now;
     utc_now := 1700000000;
     reply := Response 200 "Service is warming up" |}.

(** Upstream answers 200 with a message whose content is null. *)
Definition null_content_body : value :=
  VDict [ ("choices", VList [ VDict [ ("message",
                                        VDict [("content", VNone)]) ] ]) ].

Definition env_null_content : env :=
  {| json_loads := decoder [("BODY", null_content_body)];
     local_now := test_now;
     utc_now := 1700000000;
     reply := Response 200 "BODY" |}.

Definition greet_prompt : user_prompt :=
  prompt_text ("Task: greet" ++ nl ++ "Language: python")%string.



(** A reply whose usage block reports [prompt_tokens] prompt tokens. *)
Definition body_with_usage (content_text : string) (prompt_tokens : value)
  : value :=
  VDict [ ("choices", VList [ VDict [ ("message",
                                        VDict [("content", VStr content_text)]) ] ]);
          ("usage", VDict [ ("prompt_tokens", prompt_tokens);
                            ("completion_tokens", VInt 50) ]) ].

Definition env_reporting (prompt_tokens : value) : env :=
  {| json_loads := decoder [("BODY", body_with_usage good_content_text
                                                     prompt_tokens);
                            (good_content_text, good_content)];
     local_now := test_now;
     utc_now := 1700000000;
     reply := Response 200 "BODY" |}.

(** The first tool of the list. *)
Definition generate_code_tool : Tool :=
  {| name := "generate_code";
     description := "Generate new code using DeepSeek specialist";
     properties := [ string_property "file_path";
                     string_property "task_description";
                     string_property "language";
                     string_property "context" ];
     required := ["task_description"; "language"] |}.

Definition example_secrets_file : secrets_file :=
  Some (inl (VDict [ ("openrouter_api_key", VStr "file-key");
                     ("cost_limits", VDict [("daily_usd", VFloat 5.0)]) ])).

Definition example_environ : environ :=
  {| OPENROUTER_API_KEY := Some "env-key";
     GROVE_CODER_WORKER_MODEL := Some "" |}.

(* ================================================================= *)
(** * Properties *)

(** ** The ledger, over any arithmetic *)

Section LedgerFacts.

Context {A : arith}.
Implicit Types (w : world A) (now : Z) (period : string).

Lemma valid_period_accepted period :
  In period VALID_PERIODS ->
  existsb (String.eqb period) VALID_PERIODS = true.
Proof.
  intros H. apply existsb_exists. exists period. split; [exact H|].
  apply String.eqb_refl.
Qed.

Lemma invalid_period_rejected period :
  ~ In period VALID_PERIODS ->
  existsb (String.eqb period) VALID_PERIODS = false.
Proof.
  intros H. destruct (existsb _ _) eqn:E; [|reflexivity].
  apply existsb_exists in E. destruct E as [p [Hin Heq]].
  apply String.eqb_eq in Heq. subst p. contradiction.
Qed.

(** A report on a recognised window: one SELECT, then the report of
    the fetched rows. *)
Lemma get_report_valid now period tool_filter w :
  In period VALID_PERIODS ->
  get_report now period tool_filter w =
    (Return (build_report
               (fetchall (rows w) (start_date_of now period)
                         (effective_filter tool_filter))),
     add_events w [StoreQuery (start_date_of now period)
                              (effective_filter tool_filter)]).
Proof.
  intros H. unfold get_report.
  rewrite (valid_period_accepted _ H). reflexivity.
Qed.

(** A report on any other window raises before the store is touched. *)
Lemma get_report_invalid now period tool_filter w :
  ~ In period VALID_PERIODS ->
  get_report now period tool_filter w =
    (Raise (ValueError ("Invalid period '" ++ period
                          ++ "'. Must be one of: today, week, month, all")%string),
     w).
Proof.
  intros H. unfold get_report.
  rewrite (invalid_period_rejected _ H). reflexivity.
Qed.

Lemma check_cost_limit_valid now period limit w :
  In period VALID_PERIODS ->
  check_cost_limit now period limit w =
    (Return (nlt A (totalSpend w now period) limit),
     add_events w [StoreQuery (start_date_of now period) None]).
Proof.
  intros H. unfold check_cost_limit, bind.
  rewrite (get_report_valid _ _ _ _ H). reflexivity.
Qed.

End LedgerFacts.

(** ** An invariant of the costs carries over to the totals *)

Section Invariant.
Context {A : arith} (P : num A -> Prop).
Hypothesis P_zero : P (nzero A).
Hypothesis P_add : forall x y, P x -> P y -> P (nadd A x y).

Lemma fold_add_invariant (l : list (num A)) (a : num A) :
  P a -> Forall P l -> P (fold_left (nadd A) l a).
Proof.
  revert a. induction l as [|x l IH]; intros a Ha Hl; simpl.
  - exact Ha.
  - inversion Hl; subst. apply IH; [apply P_add|]; assumption.
Qed.

Lemma group_insert_invariant r gs :
  P (cost_usd r) -> costs_in P gs -> costs_in P (group_insert r gs).
Proof.
  intros Hr. induction gs as [|g gs IH]; intros Hgs; simpl.
  - constructor; [|constructor]. simpl. apply P_add; assumption.
  - inversion Hgs; subst. destruct (same_group g r).
    + constructor; [|assumption]. simpl. apply P_add; assumption.
    + constructor; [assumption|]. apply IH. assumption.
Qed.

Lemma group_by_invariant rs :
  Forall (fun r => P (cost_usd r)) rs -> costs_in P (group_by rs).
Proof.
  unfold group_by. generalize (@nil (sql_row A)) (Forall_nil (fun g : sql_row A => P (row_cost g))).
  induction rs as [|r rs IH]; intros gs Hgs Hrs; simpl.
  - exact Hgs.
  - inversion Hrs; subst. apply IH; [|assumption].
    apply group_insert_invariant; assumption.
Qed.

Lemma insert_desc_invariant g gs :
  P (row_cost g) -> costs_in P gs -> costs_in P (insert_desc g gs).
Proof.
  intros Hg. induction gs as [|h t IH]; intros Hgs; simpl.
  - constructor; [assumption|constructor].
  - inversion Hgs; subst. destruct (comes_first g h).
    + constructor; assumption.
    + constructor; [assumption|]. apply IH. assumption.
Qed.

Lemma order_by_invariant gs : costs_in P gs -> costs_in P (order_by_date_desc gs).
Proof.
  induction 1 as [|g gs Hg Hgs IH]; simpl.
  - constructor.
  - apply insert_desc_invariant; assumption.
Qed.

Lemma filter_invariant {X} (Q : X -> Prop) (f : X -> bool) l :
  Forall Q l -> Forall Q (filter f l).
Proof.
  induction 1 as [|x l Hx Hl IH]; simpl; [constructor|].
  destruct (f x); [constructor|]; assumption.
Qed.

(** Before rounding, the total of a report is in [P] as soon as every
    cost of the ledger is. *)
Lemma fetched_total_invariant (rs : list (request A)) start tool_filter :
  Forall (fun r => P (cost_usd r)) rs ->
  P (fold_left (nadd A) (map row_cost (fetchall rs start tool_filter)) (nzero A)).
Proof.
  intros H. apply fold_add_invariant; [exact P_zero|].
  apply Forall_map. unfold fetchall.
  apply order_by_invariant, group_by_invariant, filter_invariant, H.
Qed.
End Invariant.


(** ** Totals in an exact arithmetic *)

Section ExactArithmetic.
Context {A : arith}.
Hypothesis nadd_comm : forall x y : num A, nadd A x y = nadd A y x.
Hypothesis nadd_assoc : forall x y z : num A, nadd A x (nadd A y z) = nadd A (nadd A x y) z.
Hypothesis nadd_0_l : forall x : num A, nadd A (nzero A) x = x.
Implicit Types (r : request A) (rs : list (request A)).
Implicit Types (g : sql_row A) (gs : list (sql_row A)).



Lemma fold_Zadd_from (l : list Z) (a : Z) :
  fold_left Z.add l a = a + fold_left Z.add l 0.
Proof.
  revert a. induction l as [|x l IH]; intros a; simpl; [lia|].
  rewrite IH, (IH x). lia.
Qed.

Lemma count_cons (n : Z) l : fold_left Z.add (n :: l) 0 = n + fold_left Z.add l 0.
Proof. simpl. apply fold_Zadd_from. Qed.


Lemma group_insert_count r gs :
  group_count (group_insert r gs) = group_count gs + 1.
Proof.
  unfold group_count. induction gs as [|g gs IH]; simpl map.
  - reflexivity.
  - destruct (same_group g r); simpl map; rewrite !count_cons; simpl; [lia|].
    rewrite IH. lia.
Qed.


Lemma group_by_count_from rs gs :
  group_count (fold_left (fun gs r => group_insert r gs) rs gs)
  = group_count gs + Z.of_nat (List.length rs).
Proof.
  revert gs. induction rs as [|r rs IH]; intros gs.
  - simpl. lia.
  - cbn [fold_left List.length]. rewrite IH, group_insert_count. lia.
Qed.


Lemma insert_desc_count g gs :
  group_count (insert_desc g gs) = row_requests g + group_count gs.
Proof.
  unfold group_count. induction gs as [|h t IH]; simpl map.
  - apply count_cons.
  - destruct (comes_first g h); simpl map; rewrite !count_cons.
    + reflexivity.
    + rewrite IH. lia.
Qed.


Lemma order_by_count gs : group_count (order_by_date_desc gs) = group_count gs.
Proof.
  induction gs as [|g gs IH]; simpl; [reflexivity|].
  rewrite insert_desc_count, IH. unfold group_count. simpl map.
  rewrite count_cons. reflexivity.
Qed.





End ExactArithmetic.

(** ** Logging appends, and nothing else *)

Section Logging.

Context {A : arith}.

Lemma log_request_writable utc tool cost tokens path (w : world A) :
  writable w = true ->
  insert_accepted cost tokens = true ->
  log_request utc tool cost tokens path w =
    (Return tt,
     {| rows := rows w
                ++ [ {| id := N.of_nat (List.length (rows w)) + 1;
                        timestamp := utc;
                        tool_name := tool;
                        cost_usd := nstore A cost;
                        input_tokens := dict_get tokens "input" (VInt 0);
                        output_tokens := dict_get tokens "output" (VInt 0);
                        file_path := path |} ];
        writable := true;
        events := events w ++ [StoreInsert tool] |}).
Proof.
  intros H Hok. unfold insert_accepted, binds in Hok.
  unfold log_request, bind, emit, add_events.
  cbn [writable rows events]. rewrite H.
  destruct (bind_parameter 3 _) as [[]|]; [|discriminate Hok].
  destruct (bind_parameter 4 _) as [[]|]; [|discriminate Hok].
  cbn [rbind]. cbn [andb] in Hok. apply negb_true_iff in Hok. rewrite Hok.
  reflexivity.
Qed.

(** On a store that takes writes, an INSERT that is not accepted raises
    the error of the first token count that cannot be bound, or that of
    the NOT NULL constraint; no row is added. *)
Lemma log_request_refused utc tool cost tokens path (w : world A) :
  writable w = true ->
  insert_accepted cost tokens = false ->
  exists e,
    log_request utc tool cost tokens path w
    = (Raise e, add_events w [StoreInsert tool])
    /\ (bind_parameter 3 (dict_get tokens "input" (VInt 0)) = Raise e
        \/ bind_parameter 4 (dict_get tokens "output" (VInt 0)) = Raise e
        \/ e = IntegrityError "NOT NULL constraint failed: requests.cost_usd").
Proof.
  intros H Hno. unfold insert_accepted, binds in Hno.
  unfold log_request, bind, emit.
  cbn [add_events writable rows events]. rewrite H.
  destruct (bind_parameter 3 _) as [[]|e3] eqn:H3; cbn [rbind].
  2:{ exists e3. split; [reflexivity|]. auto. }
  destruct (bind_parameter 4 _) as [[]|e4] eqn:H4.
  2:{ exists e4. split; [reflexivity|]. auto. }
  cbn [andb] in Hno. apply negb_false_iff in Hno. rewrite Hno.
  eexists. split; [reflexivity|]. auto.
Qed.

(** Whatever the outcome of the INSERT, the store keeps or refuses
    writes as before, the event log gains the INSERT, and the rows are
    those of before, or one more when the INSERT succeeded. *)
Lemma log_request_outcome utc tool cost tokens path (w : world A) :
  let out := log_request utc tool cost tokens path w in
  writable (snd out) = writable w
  /\ events (snd out) = events w ++ [StoreInsert tool]
  /\ ((exists e, fst out = Raise e /\ rows (snd out) = rows w)
      \/ (fst out = Return tt
          /\ writable w = true
          /\ insert_accepted cost tokens = true
          /\ rows (snd out)
             = rows w
               ++ [ {| id := N.of_nat (List.length (rows w)) + 1;
                       timestamp := utc;
                       tool_name := tool;
                       cost_usd := nstore A cost;
                       input_tokens := dict_get tokens "input" (VInt 0);
                       output_tokens := dict_get tokens "output" (VInt 0);
                       file_path := path |} ])).
Proof.
  cbv zeta. unfold log_request, bind, emit, add_events, insert_accepted, binds.
  cbn [writable rows events].
  destruct (writable w) eqn:Hw.
  2:{ cbn [fst snd writable rows events].
      split; [reflexivity|]. split; [reflexivity|].
      left. eexists. split; reflexivity. }
  destruct (bind_parameter 3 _) as [[]|e3]; cbn [rbind].
  2:{ cbn [fst snd writable rows events].
      split; [reflexivity|]. split; [reflexivity|].
      left. eexists. split; reflexivity. }
  destruct (bind_parameter 4 _) as [[]|e4].
  2:{ cbn [fst snd writable rows events].
      split; [reflexivity|]. split; [reflexivity|].
      left. eexists. split; reflexivity. }
  destruct (nnull A cost); cbn [fst snd writable rows events];
    (split; [reflexivity|]); (split; [reflexivity|]).
  - left. eexists. split; reflexivity.
  - right. repeat split; reflexivity.
Qed.



End Logging.

(** ** Binary64 comparisons and signs *)


Lemma not_negative_sf (x : float) :
  not_negative x <-> sf_not_negative (Prim2SF x) = true.
Proof.
  unfold not_negative. rewrite ltb_spec.
  change (Prim2SF 0) with (S754_zero false).
  destruct (Prim2SF x) as [s|[|]| |[|] m e]; simpl; split; intros H;
    try reflexivity; try discriminate.
Qed.

Lemma sign_clear_is_not_negative (f : spec_float) :
  sf_sign_clear f = true -> sf_not_negative f = true.
Proof. destruct f as [[|]|[|]| |[|] m e]; simpl; congruence. Qed.

Lemma sign_clear_not_negative (x : float) : sign_clear x -> not_negative x.
Proof. intros H. apply not_negative_sf, sign_clear_is_not_negative, H. Qed.

(** Rounding keeps the sign it is given: with the sign bit clear the
    result is a positive zero, a positive number, plus infinity (or NaN,
    for a mantissa that is not one). *)
Lemma round_aux_sign_clear m e l :
  sf_sign_clear (binary_round_aux prec emax false m e l) = true.
Proof.
  unfold binary_round_aux.
  destruct (shr_fexp prec emax m e l) as [mrs' e'].
  destruct (shr_fexp prec emax _ e' loc_Exact) as [mrs'' e''].
  destruct (shr_m mrs''); [reflexivity| |reflexivity].
  destruct (e'' <=? emax - prec); reflexivity.
Qed.

Lemma binary_round_sign_clear m e :
  sf_sign_clear (binary_round prec emax false m e) = true.
Proof.
  unfold binary_round.
  destruct (shl_align m e _) as [mz ez]. apply round_aux_sign_clear.
Qed.

Lemma SFadd_not_negative x y :
  sf_not_negative x = true -> sf_not_negative y = true ->
  sf_not_negative (SFadd prec emax x y) = true.
Proof.
  destruct x as [sx|[|]| |[|] mx ex], y as [sy|[|]| |[|] my ey];
    simpl; try congruence; intros _ _.
  - destruct sx, sy; reflexivity.
  - apply sign_clear_is_not_negative. unfold binary_normalize.
    destruct (fst (shl_align mx ex (Z.min ex ey))),
             (fst (shl_align my ey (Z.min ex ey)));
      simpl; apply binary_round_sign_clear.
Qed.

Lemma SFadd_sign_clear x y :
  sf_sign_clear x = true -> sf_sign_clear y = true ->
  sf_sign_clear (SFadd prec emax x y) = true.
Proof.
  destruct x as [[|]|[|]| |[|] mx ex], y as [[|]|[|]| |[|] my ey];
    simpl; try congruence; intros _ _.
  unfold binary_normalize.
  destruct (fst (shl_align mx ex (Z.min ex ey))),
           (fst (shl_align my ey (Z.min ex ey)));
    simpl; apply binary_round_sign_clear.
Qed.

Lemma SFmul_sign_clear x y :
  sf_sign_clear x = true -> sf_sign_clear y = true ->
  sf_sign_clear (SFmul prec emax x y) = true.
Proof.
  destruct x as [[|]|[|]| |[|] mx ex], y as [[|]|[|]| |[|] my ey];
    simpl; try congruence; intros _ _.
  apply round_aux_sign_clear.
Qed.

Lemma SFdiv_sign_clear x y :
  sf_sign_clear x = true -> sf_sign_clear y = true ->
  sf_sign_clear (SFdiv prec emax x y) = true.
Proof.
  destruct x as [[|]|[|]| |[|] mx ex], y as [[|]|[|]| |[|] my ey];
    simpl; try congruence; intros _ _.
  destruct (SFdiv_core_binary _ _ _ _ _ _) as [[mz ez] lz].
  apply round_aux_sign_clear.
Qed.

Lemma SFldexp_sign_clear f e :
  sf_sign_clear f = true -> sf_sign_clear (SFldexp prec emax f e) = true.
Proof.
  destruct f as [s|s| |[|] m ex]; simpl; try congruence.
  intros _. apply binary_round_sign_clear.
Qed.

Lemma of_uint63_sign_clear n : sign_clear (of_uint63 n).
Proof.
  unfold sign_clear. rewrite of_uint63_spec.
  pose proof (Uint63.to_Z_bounded n) as B.
  destruct (Uint63.to_Z n) as [|p|p]; simpl.
  - reflexivity.
  - apply binary_round_sign_clear.
  - lia.
Qed.

Lemma SF2Prim_sign_clear y :
  sf_sign_clear y = true -> sign_clear (SF2Prim y).
Proof.
  unfold sign_clear.
  destruct y as [[|]|[|]| |[|] m e]; simpl; try congruence; intros _;
    try reflexivity.
  unfold Z.ldexp. rewrite ldshiftexp_spec.
  apply SFldexp_sign_clear, of_uint63_sign_clear.
Qed.

Lemma py_round6_sign_clear x : sign_clear x -> sign_clear (py_round6 x).
Proof.
  unfold sign_clear, py_round6. intros H.
  destruct (Prim2SF x) as [s|s| |s m e] eqn:E; try (rewrite E; exact H).
  destruct s; [discriminate H|].
  destruct (round_half_even_scaled _ _); try reflexivity.
  apply SF2Prim_sign_clear, SFdiv_sign_clear; reflexivity.
Qed.

Lemma py_round6_not_negative x :
  not_negative x -> not_negative (py_round6 x).
Proof.
  intros H. unfold py_round6.
  pose proof (proj1 (not_negative_sf x) H) as Hx.
  destruct (Prim2SF x) as [s|s| |s m e] eqn:E; try exact H.
  destruct s; [discriminate Hx|].
  destruct (round_half_even_scaled _ _); try reflexivity.
  apply sign_clear_not_negative, SF2Prim_sign_clear, SFdiv_sign_clear;
    reflexivity.
Qed.

Lemma add_not_negative x y :
  not_negative x -> not_negative y -> not_negative (x + y)%float.
Proof.
  rewrite !not_negative_sf, add_spec. apply SFadd_not_negative.
Qed.

(** A float that is not negative is not below a limit of zero or less. *)
Lemma not_negative_not_below (x limit : float) :
  not_negative x -> (limit <=? 0)%float = true -> (x <? limit)%float = false.
Proof.
  rewrite not_negative_sf, leb_spec, ltb_spec.
  change (Prim2SF 0) with (S754_zero false).
  destruct (Prim2SF x) as [sx|[|]| |[|] mx ex],
           (Prim2SF limit) as [sl|[|]| |[|] ml el];
    cbv [sf_not_negative SFleb SFltb SFcompare]; try congruence;
    try reflexivity.
Qed.

Lemma nonneg_not_negative x : (0 <=? x)%float = true -> not_negative x.
Proof.
  unfold not_negative. rewrite leb_spec, ltb_spec.
  change (Prim2SF 0) with (S754_zero false).
  destruct (Prim2SF x) as [sx|[|]| |[|] mx ex];
    cbv [SFleb SFltb SFcompare]; congruence.
Qed.

(** Costs that are all at least zero are, in particular, not negative. *)
Lemma costs_at_least_zero (w : World) :
  Forall (fun r : request binary64 => (0 <=? cost_usd r)%float = true) (rows w) ->
  costs_not_negative w.
Proof.
  unfold costs_not_negative. apply Forall_impl.
  intros r. apply nonneg_not_negative.
Qed.

(** *** The cost of a call is not negative *)

Lemma float_of_int_sign_clear (n : Z) : 0 <= n -> sign_clear (float_of_int n).
Proof.
  intros H. unfold float_of_int.
  destruct (0 <=? n) eqn:E; [apply of_uint63_sign_clear|].
  apply Z.leb_gt in E. lia.
Qed.

Lemma SF_of_int_sign_clear (n : Z) : 0 <= n -> sf_sign_clear (SF_of_int n) = true.
Proof. destruct n; simpl; intros H; [reflexivity|reflexivity|lia]. Qed.

Lemma int_truediv_sign_clear (a b : Z) (x : float) :
  0 <= a -> 0 <= b -> int_truediv a b = Return x -> sign_clear x.
Proof.
  intros Ha Hb. unfold int_truediv.
  destruct (b =? 0); [discriminate|].
  destruct (exact_in_double a && exact_in_double b).
  - intros H. injection H as <-. unfold sign_clear. rewrite div_spec.
    apply SFdiv_sign_clear; apply float_of_int_sign_clear; assumption.
  - destruct (is_infinity _); [discriminate|].
    intros H. injection H as <-.
    apply SF2Prim_sign_clear, SFdiv_sign_clear;
      apply SF_of_int_sign_clear; assumption.
Qed.

(** With token counts that are not negative, the cost is not negative. *)
Lemma calculate_cost_sign_clear (usage : dict value) (i o : Z) (cost : float) :
  dict_get usage "prompt_tokens" (VInt 0) = VInt i ->
  dict_get usage "completion_tokens" (VInt 0) = VInt o ->
  0 <= i -> 0 <= o ->
  _calculate_cost (VDict usage) = Return cost ->
  sign_clear cost.
Proof.
  intros Hi Ho Bi Bo. unfold _calculate_cost, method_get, rbind.
  rewrite Hi, Ho. unfold truediv_int.
  destruct (int_truediv i 1000000) as [x|] eqn:Ex; [|discriminate].
  destruct (int_truediv o 1000000) as [y|] eqn:Ey; [|discriminate].
  intros H. injection H as <-.
  apply py_round6_sign_clear. unfold sign_clear.
  rewrite add_spec, !mul_spec.
  apply SFadd_sign_clear; apply SFmul_sign_clear; try reflexivity.
  - apply (int_truediv_sign_clear i 1000000); [assumption|lia|assumption].
  - apply (int_truediv_sign_clear o 1000000); [assumption|lia|assumption].
Qed.

Lemma totalSpend_not_negative (w : World) (now : Z) (period : string) :
  costs_not_negative w -> not_negative (totalSpend w now period).
Proof.
  intros H. unfold totalSpend, build_report. cbn [total_cost_usd].
  apply py_round6_not_negative.
  apply (fetched_total_invariant (A:=binary64) not_negative).
  - reflexivity.
  - exact add_not_negative.
  - exact H.
Qed.

(* ================================================================= *)
(** * The claims *)

(** ** Admission check *)




Lemma today_is_valid : In "today" VALID_PERIODS.
Proof. simpl; auto. Qed.

Lemma month_is_valid : In "month" VALID_PERIODS.
Proof. simpl; auto. Qed.

(** C9: when no cost on the ledger is negative (the empty ledger
    included), [check_cost_limit] with a limit of zero or below returns
    False on every recognised window, and a broker whose daily or
    monthly limit is zero or below answers every generate, edit or
    review request with a limit denial, without calling upstream and
    without touching the rows. *)
Theorem non_positive_limit_denies (w : World) :
  costs_not_negative w ->
  (forall now period limit,
      In period VALID_PERIODS ->
      (limit <=? 0)%float = true ->
      fst (check_cost_limit (A:=binary64) now period limit w) = Return false)
  /\
  (forall E self tool a,
      (daily_limit_of self <=? 0)%float = true
      \/ (monthly_limit_of self <=? 0)%float = true ->
      exists error limit_usd w',
        _handle_deepseek_call E self tool a w
          = (Return (text_content (dumps_limit error limit_usd)), w')
        /\ rows w' = rows w
        /\ filter is_post (events w') = filter is_post (events w)
        /\ filter is_insert (events w') = filter is_insert (events w)).
Proof.
  intros Hw. split.
  - intros now period limit Hp Hl.
    rewrite (check_cost_limit_valid (A:=binary64)) by exact Hp. cbn [fst].
    f_equal. apply not_negative_not_below; [|exact Hl].
    apply totalSpend_not_negative, Hw.
  - intros E self tool a Hlim.
    unfold _handle_deepseek_call, bind.
    rewrite (check_cost_limit_valid (A:=binary64)) by exact today_is_valid.
    cbn [nlt binary64].
    destruct (totalSpend w (local_now E) "today" <? daily_limit_of self)%float
      eqn:Hd; cbn [negb].
    + rewrite (check_cost_limit_valid (A:=binary64)) by exact month_is_valid.
      cbn [nlt binary64].
      destruct Hlim as [Hz|Hz].
      * rewrite (not_negative_not_below _ _ (totalSpend_not_negative w _ _ Hw) Hz)
          in Hd. discriminate.
      * change (totalSpend (add_events w _) (local_now E) "month")
          with (totalSpend w (local_now E) "month").
        rewrite (not_negative_not_below _ _ (totalSpend_not_negative w _ _ Hw) Hz).
        cbn [negb]. do 3 eexists. split; [reflexivity|].
        cbn [rows add_events events]. rewrite <- !app_assoc.
        rewrite !filter_app. cbn. rewrite !app_nil_r. auto.
    + do 3 eexists. split; [reflexivity|].
      cbn [rows add_events events]. rewrite !filter_app. cbn.
      rewrite !app_nil_r. auto.
Qed.

Lemma non_positive_limit_denies_witness :
  costs_not_negative empty_ledger /\
  fst (check_cost_limit (A:=binary64) test_now "today" 0%float empty_ledger)
    = Return false /\
  exists error limit_usd w',
    _handle_deepseek_call quiet_env zero_daily_server "generate_code"
                          generate_args empty_ledger
      = (Return (text_content (dumps_limit error limit_usd)), w')
    /\ rows w' = rows empty_ledger
    /\ filter is_post (events w') = filter is_post (events empty_ledger)
    /\ filter is_insert (events w') = filter is_insert (events empty_ledger).
Proof.
  assert (H : costs_not_negative empty_ledger) by (constructor).
  split; [exact H|]. split.
  - apply (proj1 (non_positive_limit_denies empty_ledger H)).
    + simpl; auto.
    + reflexivity.
  - apply (proj2 (non_positive_limit_denies empty_ledger H)).
    left. reflexivity.
Defined.

(** ** Cost of a call *)

Lemma million_as_float : float_of_int 1000000 = 1e6%float.
Proof. vm_compute. reflexivity. Qed.

Lemma exact_in_double_abs (n : Z) : Z.abs n <= 2 ^ 53 -> exact_in_double n = true.
Proof. intros H. unfold exact_in_double. apply Z.leb_le. exact H. Qed.

(** C4: for a usage block whose token counts are integers (up to 2^53,
    the range a double holds exactly; a missing count is 0) the cost is
    [round(inputTokens/1e6 * 0.25 + outputTokens/1e6 * 0.38, 6)]; one
    million tokens each way cost exactly 0.63, and no tokens cost 0.0. *)
Theorem calculate_cost_formula (usage : dict value)
    (inputTokens outputTokens : Z) :
  dict_get usage "prompt_tokens" (VInt 0) = VInt inputTokens ->
  dict_get usage "completion_tokens" (VInt 0) = VInt outputTokens ->
  Z.abs inputTokens <= 2 ^ 53 ->
  Z.abs outputTokens <= 2 ^ 53 ->
  _calculate_cost (VDict usage) = Return (spec_cost inputTokens outputTokens)
  /\ _calculate_cost (VDict [("prompt_tokens", VInt 1000000);
                             ("completion_tokens", VInt 1000000)])
     = Return 0.63%float
  /\ _calculate_cost (VDict []) = Return 0%float.
Proof.
  intros Hi Ho Bi Bo. split; [|split; vm_compute; reflexivity].
  unfold _calculate_cost, method_get, rbind. rewrite Hi, Ho.
  unfold truediv_int, int_truediv.
  change (1000000 =? 0) with false. cbv iota.
  rewrite (exact_in_double_abs _ Bi), (exact_in_double_abs _ Bo).
  change (exact_in_double 1000000) with true. cbn [andb].
  rewrite million_as_float. reflexivity.
Qed.

Lemma calculate_cost_formula_witness :
  _calculate_cost (VDict [("prompt_tokens", VInt 123457)])
    = Return (spec_cost 123457 0)
  /\ _calculate_cost (VDict [("prompt_tokens", VInt 1000000);
                             ("completion_tokens", VInt 1000000)])
     = Return 0.63%float
  /\ _calculate_cost (VDict []) = Return 0%float.
Proof.
  apply (calculate_cost_formula [("prompt_tokens", VInt 123457)] 123457 0).
  - reflexivity.
  - reflexivity.
  - vm_compute. discriminate.
  - vm_compute. discriminate.
Defined.

(** ** The broker: admission gate *)

Lemma check_result_on_events (w : World) (evs : list event) now period limit :
  fst (check_cost_limit (A:=binary64) now period limit (add_events w evs))
  = fst (check_cost_limit (A:=binary64) now period limit w).
Proof.
  unfold check_cost_limit, bind, get_report.
  destruct (negb (existsb (String.eqb period) VALID_PERIODS)); reflexivity.
Qed.

(** C2: the daily check is the first thing the broker does, and the
    monthly check follows only when the daily one passed.  A failed daily
    check yields the daily denial, carrying the daily limit, after that
    one store query; a failed monthly check yields the monthly denial,
    carrying the monthly limit, after the two store queries.  In both
    cases nothing is posted upstream and the rows are as before; the two
    denials differ. *)
Theorem admission_gate (E : env) (self : GroveCoderServer) (tool : string)
    (a : arguments) (w : World) :
  let now := local_now E in
  let daily := daily_limit_of self in
  let monthly := monthly_limit_of self in
  let today_query := StoreQuery (start_date_of now "today") None in
  let month_query := StoreQuery (start_date_of now "month") None in
  (fst (check_cost_limit (A:=binary64) now "today" daily w) = Return false ->
   _handle_deepseek_call E self tool a w
   = (Return (text_content (dumps_limit "Daily cost limit exceeded" daily)),
      add_events w [today_query]))
  /\
  (fst (check_cost_limit (A:=binary64) now "today" daily w) = Return true ->
   fst (check_cost_limit (A:=binary64) now "month" monthly w) = Return false ->
   _handle_deepseek_call E self tool a w
   = (Return (text_content (dumps_limit "Monthly cost limit exceeded" monthly)),
      add_events w [today_query; month_query]))
  /\
  dumps_limit "Daily cost limit exceeded" daily
  <> dumps_limit "Monthly cost limit exceeded" monthly.
Proof.
  intros now daily monthly today_query month_query.
  subst now daily monthly today_query month_query.
  split; [|split].
  - intros Hd. unfold _handle_deepseek_call, bind.
    rewrite (check_cost_limit_valid (A:=binary64)) in Hd |- * by exact today_is_valid.
    cbn [fst] in Hd. injection Hd as Hd.
    cbn [nlt binary64] in Hd |- *. rewrite Hd. reflexivity.
  - intros Hd Hm. unfold _handle_deepseek_call, bind.
    rewrite <- (check_result_on_events w
                  [StoreQuery (start_date_of (local_now E) "today") None]) in Hm.
    rewrite (check_cost_limit_valid (A:=binary64)) in Hd |- * by exact today_is_valid.
    cbn [fst] in Hd. injection Hd as Hd.
    cbn [nlt binary64] in Hd |- *. rewrite Hd. cbn [negb].
    rewrite (check_cost_limit_valid (A:=binary64)) in Hm |- * by exact month_is_valid.
    cbn [fst] in Hm. injection Hm as Hm.
    cbn [nlt binary64] in Hm |- *. rewrite Hm. cbn [negb].
    unfold ret, add_events. cbn [rows writable events].
    rewrite <- app_assoc. reflexivity.
  - intros H. discriminate H.
Qed.

Lemma admission_gate_witness :
  (fst (check_cost_limit (A:=binary64) test_now "today" 10%float (one_request 15))
     = Return false /\
   _handle_deepseek_call quiet_env test_server "generate_code" generate_args
                         (one_request 15)
   = (Return (text_content (dumps_limit "Daily cost limit exceeded" 10%float)),
      add_events (one_request 15)
                 [StoreQuery (start_date_of test_now "today") None]))
  /\
  (fst (check_cost_limit (A:=binary64) test_now "today" 10%float (one_old_request 55))
     = Return true /\
   fst (check_cost_limit (A:=binary64) test_now "month" 50%float (one_old_request 55))
     = Return false /\
   _handle_deepseek_call quiet_env test_server "generate_code" generate_args
                         (one_old_request 55)
   = (Return (text_content (dumps_limit "Monthly cost limit exceeded" 50%float)),
      add_events (one_old_request 55)
                 [StoreQuery (start_date_of test_now "today") None;
                  StoreQuery (start_date_of test_now "month") None])).
Proof.
  split.
  - split; [reflexivity|].
    apply (proj1 (admission_gate quiet_env test_server "generate_code"
                    generate_args (one_request 15))).
    reflexivity.
  - split; [reflexivity|]. split; [reflexivity|].
    apply (proj1 (proj2 (admission_gate quiet_env test_server "generate_code"
                           generate_args (one_old_request 55)))).
    + reflexivity.
    + reflexivity.
Defined.

(** ** The broker: cost reports *)

(** C6 (as stated) fails: on the window "decade" the broker returns no
    payload at all; the [ValueError] of the ledger leaves
    [_handle_tool_call] as an exception (the store was not queried). *)
Lemma invalid_window_leaves_broker_as_exception :
  _handle_tool_call quiet_env test_server "get_cost_report" decade_args
                    empty_ledger
  = (Raise (ValueError
              "Invalid period 'decade'. Must be one of: today, week, month, all"),
     empty_ledger).
Proof. reflexivity. Qed.

(** C6 (amended): a report query whose window is not one of the four
    recognised values fails with the invalid-window [ValueError] before
    any store query is issued; the broker's report handler does not
    handle it: the exception propagates out of [_handle_tool_call], with
    the world untouched. *)
Theorem invalid_window_raises (E : env) (self : GroveCoderServer)
    (a : arguments) (w : World) (period : string) :
  arg_lookup a "period" = Some period ->
  ~ In period VALID_PERIODS ->
  let failure :=
    ValueError ("Invalid period '" ++ period
                  ++ "'. Must be one of: today, week, month, all")%string in
  get_report (A:=binary64) (local_now E) period (arg_lookup a "tool") w
    = (Raise failure, w)
  /\ _handle_tool_call E self "get_cost_report" a w = (Raise failure, w).
Proof.
  intros Hp Hinv failure. split.
  - apply get_report_invalid. exact Hinv.
  - unfold _handle_tool_call. cbn [existsb String.eqb Ascii.eqb Bool.eqb orb].
    unfold _handle_cost_report, bind, arg_get, dict_get.
    unfold arg_lookup in Hp. rewrite Hp.
    rewrite (get_report_invalid (A:=binary64)) by exact Hinv. reflexivity.
Qed.

Lemma decade_is_invalid : ~ In "decade" VALID_PERIODS.
Proof. simpl. intros [H|[H|[H|[H|[]]]]]; discriminate H. Qed.

Lemma invalid_window_raises_witness :
  arg_lookup decade_args "period" = Some "decade" /\
  ~ In "decade" VALID_PERIODS /\
  get_report (A:=binary64) test_now "decade" None empty_ledger
    = (Raise (ValueError
                "Invalid period 'decade'. Must be one of: today, week, month, all"),
       empty_ledger)
  /\ _handle_tool_call quiet_env test_server "get_cost_report" decade_args
                       empty_ledger
     = (Raise (ValueError
                 "Invalid period 'decade'. Must be one of: today, week, month, all"),
        empty_ledger).
Proof.
  split; [reflexivity|]. split; [exact decade_is_invalid|].
  apply (invalid_window_raises quiet_env test_server decade_args empty_ledger
           "decade").
  - reflexivity.
  - exact decade_is_invalid.
Defined.



(** ** The upstream call *)

(** [call], step by step: validation, the user prompt, then the POST
    (the one event) and the handling of the reply. *)
Lemma call_run (E : env) (self : DeepSeekClient) (a : arguments)
    (tool : string) (w : World) :
  call E self a tool w =
    match _validate_inputs a tool with
    | Raise e => (Raise e, w)
    | Return _ =>
        match _build_user_prompt a tool with
        | Raise e => (Raise e, w)
        | Return up =>
            (text <~ post E ;; handle_response E text,
             add_events w [UpstreamPost
                             (build_payload self (_get_system_prompt tool a)
                                            up tool)])
        end
    end.
Proof.
  unfold call, bind, lift, emit.
  destruct (_validate_inputs a tool); [|reflexivity].
  destruct (_build_user_prompt a tool); [|reflexivity].
  cbn. destruct (post E); reflexivity.
Qed.

Lemma long_is_truthy (s : string) (limit : Z) :
  0 <= limit -> limit < len s -> truthy s = true.
Proof.
  intros H0 H. destruct s; [|reflexivity].
  unfold len in H. simpl in H. lia.
Qed.

(** A validation loop returns, or raises the size error of one of its
    keys whose value is too long. *)
Lemma validate_keys_outcome (a : arguments) (keys : list string) (limit : Z) :
  validate_keys a keys limit = Return tt
  \/ exists key, In key keys /\ limit < len (arg_get a key "")
                /\ validate_keys a keys limit = Raise (size_error key limit).
Proof.
  induction keys as [|k keys IH]; simpl; [left; reflexivity|].
  destruct (truthy (arg_get a k "") && (limit <? len (arg_get a k ""))) eqn:E.
  - right. exists k. apply andb_prop in E. destruct E as [_ E].
    apply Z.ltb_lt in E. repeat split; auto.
  - destruct IH as [IH|[key [Hin [Hlen Hr]]]]; [left; exact IH|].
    right. exists key. repeat split; auto.
Qed.

(** It does raise when some key's value is too long. *)
Lemma validate_keys_complete (a : arguments) (keys : list string) (limit : Z)
    (key : string) :
  0 <= limit -> In key keys -> limit < len (arg_get a key "") ->
  validate_keys a keys limit <> Return tt.
Proof.
  intros H0. induction keys as [|k keys IH]; simpl; [contradiction|].
  intros [Hk|Hin] Hlen.
  - subst k. rewrite (long_is_truthy _ _ H0 Hlen).
    apply Z.ltb_lt in Hlen. rewrite Hlen. discriminate.
  - destruct (truthy (arg_get a k "") && (limit <? len (arg_get a k "")));
      [discriminate|]. apply IH; assumption.
Qed.





(** ** Failure of the append *)




(** ** Malformed replies *)

(** C5 (as stated) fails: the reply of [env_replying] carries the content
    [{"explanation": "no code here"}], an object without "code"; the
    call succeeds, with the empty string as code. *)
Lemma response_without_code_is_accepted :
  json_loads (env_replying codeless_content_text codeless_content)
             codeless_content_text
    = inl codeless_content
  /\ subscript_str codeless_content "code" = Raise (KeyError "code")
  /\ fst (call (env_replying codeless_content_text codeless_content)
               test_client generate_args "generate_code" empty_ledger)
     = Return {| result_code := VStr "";
                 result_explanation := VStr "no code here";
                 result_suggestions := VList [];
                 result_cost_usd := 4.4e-05%float;
                 result_tokens_used := [("input", VInt 100);
                                        ("output", VInt 50)] |}.
Proof. repeat split; vm_compute; reflexivity. Qed.

Lemma post_success (E : env) (status : Z) (body : string) :
  reply E = Response status body -> is_success status = true ->
  post E = Return body.
Proof. intros Hr Hs. unfold post. rewrite Hr, Hs. reflexivity. Qed.

(** C5 (amended): for a 2xx reply whose body decodes, the call fails
    with the unparseable-response error when the path
    choices[0].message.content is missing from the body (a key is
    absent, the list of choices is empty) or when the content is text
    that does not decode.  A content that decodes to an object is
    accepted whatever its keys: the call succeeds and a missing "code"
    becomes the empty string. *)
Theorem unparseable_response (E : env) (self : DeepSeekClient)
    (a : arguments) (tool : string) (w : World) (up : user_prompt)
    (status : Z) (body : string) (data : value) :
  _validate_inputs a tool = Return tt ->
  _build_user_prompt a tool = Return up ->
  reply E = Response status body ->
  is_success status = true ->
  json_loads E body = inl data ->
  ((exists e, raw_content_of data = Raise e /\ malformed e = true)
   \/ (exists raw msg, raw_content_of data = Return (VStr raw)
                       /\ json_loads E raw = inr msg) ->
   fst (call E self a tool w)
   = Raise (RuntimeError "DeepSeek returned an unparseable response"))
  /\
  (forall raw content usage cost,
      raw_content_of data = Return (VStr raw) ->
      json_loads E raw = inl (VDict content) ->
      method_get data "usage" (VDict []) = Return usage ->
      _calculate_cost usage = Return cost ->
      exists r,
        fst (call E self a tool w) = Return r
        /\ result_code r = dict_get content "code" (VStr "")
        /\ (dict_lookup content "code" = None -> result_code r = VStr "")).
Proof.
  intros Hv Hb Hr Hs Hbody.
  assert (Hcall : fst (call E self a tool w) = handle_response E body).
  { rewrite call_run, Hv, Hb. cbn [fst].
    rewrite (post_success E status body Hr Hs). reflexivity. }
  rewrite Hcall. unfold handle_response, loads. rewrite Hbody.
  cbn [rbind]. unfold extract_content. split.
  - intros [[e [He Hm]]|[raw [msg [Hraw Hmsg]]]].
    + rewrite He. cbn [rbind]. rewrite Hm. reflexivity.
    + rewrite Hraw. cbn [rbind loads]. rewrite Hmsg. reflexivity.
  - intros raw content usage cost Hraw Hcontent Husage Hcost.
    rewrite Hraw. cbn [rbind loads]. rewrite Hcontent, Husage.
    cbn [rbind]. rewrite Hcost. cbn [rbind method_get].
    destruct usage as [| | | | | |u]; try discriminate Hcost.
    cbn [rbind method_get]. eexists. split; [reflexivity|].
    cbn [result_code]. split; [reflexivity|].
    intros Hnone. unfold dict_get. rewrite Hnone. reflexivity.
Qed.

Lemma unparseable_response_witness :
  _validate_inputs generate_args "generate_code" = Return tt /\
  reply env_malformed = Response 200 "BODY" /\
  is_success 200 = true /\
  json_loads env_malformed "BODY" = inl (body_with "not valid json") /\
  fst (call env_malformed test_client generate_args "generate_code" empty_ledger)
  = Raise (RuntimeError "DeepSeek returned an unparseable response").
Proof.
  repeat (split; [reflexivity|]).
  apply (proj1 (unparseable_response env_malformed test_client generate_args
                  "generate_code" empty_ledger
                  (prompt_text ("Task: greet" ++ nl ++ "Language: python"))
                  200 "BODY" (body_with "not valid json")
                  eq_refl eq_refl eq_refl eq_refl eq_refl)).
  right. exists "not valid json".
  exists "Expecting value: line 1 column 1 (char 0)".
  split; reflexivity.
Defined.

(** Shapes that count as unparseable: no "choices" key, no choice. *)
Example body_without_choices :
  raw_content_of (VDict [("usage", VDict [])]) = Raise (KeyError "choices")
  /\ malformed (KeyError "choices") = true.
Proof. split; reflexivity. Qed.

Example body_with_empty_choices :
  raw_content_of (VDict [("choices", VList [])]) = Raise IndexError
  /\ malformed IndexError = true.
Proof. split; reflexivity. Qed.

(** A body that is not JSON at all is decoded outside the [try] block:
    the decoder's own error leaves [call]. *)
Remark undecodable_body (E : env) (self : DeepSeekClient) (a : arguments)
    (tool : string) (w : World) (up : user_prompt) (status : Z)
    (body msg : string) :
  _validate_inputs a tool = Return tt ->
  _build_user_prompt a tool = Return up ->
  reply E = Response status body ->
  is_success status = true ->
  json_loads E body = inr msg ->
  fst (call E self a tool w) = Raise (JSONDecodeError msg).
Proof.
  intros Hv Hb Hr Hs Hbody. rewrite call_run, Hv, Hb. cbn [fst].
  rewrite (post_success E status body Hr Hs). cbn [rbind].
  unfold handle_response, loads. rewrite Hbody. reflexivity.
Qed.

(** ** What the broker leaves on the ledger *)

(** The cost of a result is the price of the usage block of the body. *)
Lemma handle_response_cost (E : env) (text : string) (r : call_result) :
  handle_response E text = Return r ->
  exists data usage,
    loads E (VStr text) = Return data
    /\ method_get data "usage" (VDict []) = Return usage
    /\ _calculate_cost usage = Return (result_cost_usd r).
Proof.
  unfold handle_response.
  destruct (loads E (VStr text)) as [data|] eqn:Hdata; [|discriminate].
  cbn [rbind].
  destruct (extract_content E data) as [content|]; [|discriminate].
  cbn [rbind].
  destruct (method_get data "usage" (VDict [])) as [usage|] eqn:Hu;
    [|discriminate].
  cbn [rbind].
  destruct (_calculate_cost usage) as [cost|] eqn:Hc; [|discriminate].
  cbn [rbind].
  destruct (method_get content "code" (VStr "")); [|discriminate].
  destruct (method_get content "explanation" (VStr "")); [|discriminate].
  destruct (method_get content "suggestions" (VList [])); [|discriminate].
  destruct (method_get usage "prompt_tokens" (VInt 0)); [|discriminate].
  destruct (method_get usage "completion_tokens" (VInt 0)); [|discriminate].
  cbn [rbind]. intros H. injection H as <-.
  exists data, usage. cbn [result_cost_usd]. auto.
Qed.

(** A token count that could be priced is a number: binding it can
    fail only because it is an int outside 64 bits. *)
Lemma priced_token_bind_error (v : value) (b : Z) (x : float) (i : Z) (e : exn) :
  truediv_int v b = Return x ->
  bind_parameter i v = Raise e ->
  e = OverflowError.
Proof.
  intros Hp Hb. unfold bind_parameter in Hb. cbv zeta in Hb.
  destruct v; try discriminate Hb; try discriminate Hp.
  destruct ((- 2 ^ 63 <=? n) && (n <? 2 ^ 63)); [discriminate Hb|].
  injection Hb as <-. reflexivity.
Qed.

(** The token counts of a result are those that were priced. *)
Lemma handle_response_tokens (E : env) (text : string) (r : call_result) :
  handle_response E text = Return r ->
  exists input output x y,
    result_tokens_used r = [("input", input); ("output", output)]
    /\ truediv_int input 1000000 = Return x
    /\ truediv_int output 1000000 = Return y.
Proof.
  unfold handle_response.
  destruct (loads E (VStr text)) as [data|]; [|discriminate].
  cbn [rbind].
  destruct (extract_content E data) as [content|]; [|discriminate].
  cbn [rbind].
  destruct (method_get data "usage" (VDict [])) as [usage|]; [|discriminate].
  cbn [rbind].
  destruct (_calculate_cost usage) as [cost|] eqn:Hc; [|discriminate].
  cbn [rbind].
  destruct (method_get content "code" (VStr "")); [|discriminate].
  destruct (method_get content "explanation" (VStr "")); [|discriminate].
  destruct (method_get content "suggestions" (VList [])); [|discriminate].
  cbn [rbind]. unfold _calculate_cost in Hc.
  destruct (method_get usage "prompt_tokens" (VInt 0)) as [input|];
    [|discriminate].
  destruct (method_get usage "completion_tokens" (VInt 0)) as [output|];
    [|discriminate].
  cbn [rbind] in *.
  destruct (truediv_int input 1000000) as [x|] eqn:Hx; [|discriminate Hc].
  cbn [rbind] in Hc.
  destruct (truediv_int output 1000000) as [y|] eqn:Hy; [|discriminate Hc].
  intros H. injection H as <-. cbn [result_tokens_used].
  exists input, output, x, y. auto.
Qed.

(** A generate, edit or review request leaves the rows as they were, or
    adds exactly one row: that of an upstream call that succeeded, at the
    cost of its result. *)
Lemma broker_rows (E : env) (self : GroveCoderServer) (tool : string)
    (a : arguments) (w : World) :
  let w' := snd (_handle_deepseek_call E self tool a w) in
  rows w' = rows w
  \/ exists row text r,
      rows w' = rows w ++ [row]
      /\ tool_name row = tool
      /\ cost_usd row = nstore binary64 (result_cost_usd r)
      /\ post E = Return text
      /\ handle_response E text = Return r.
Proof.
  cbv zeta. unfold _handle_deepseek_call, bind.
  rewrite !(check_cost_limit_valid (A:=binary64)) by exact today_is_valid.
  destruct (negb _); [left; reflexivity|].
  rewrite !(check_cost_limit_valid (A:=binary64)) by exact month_is_valid.
  destruct (negb _); [left; reflexivity|].
  unfold try_except, bind. rewrite call_run.
  destruct (_validate_inputs a tool) as [[]|e].
  2:{ destruct (ValueError_or_RuntimeError e); left; reflexivity. }
  destruct (_build_user_prompt a tool) as [up|e].
  2:{ destruct (ValueError_or_RuntimeError e); left; reflexivity. }
  destruct (post E) as [text|e] eqn:Hpost; cbn [rbind].
  2:{ destruct (ValueError_or_RuntimeError e); left; reflexivity. }
  destruct (handle_response E text) as [r|e] eqn:Hr.
  2:{ destruct (ValueError_or_RuntimeError e); left; reflexivity. }
  cbn [ret].
  match goal with
  | |- context [log_request ?u ?t ?c ?k ?p ?w0] =>
      destruct (log_request_outcome (A:=binary64) u t c k p w0)
        as [_ [_ [[e [He Hrows]]|[Hret [_ [_ Hrows]]]]]];
      destruct (log_request (A:=binary64) u t c k p w0) as [[[]|e'] w1]
  end; cbn [fst snd] in *; try discriminate.
  - left. exact Hrows.
  - right. do 3 eexists. split; [exact Hrows|].
    cbn [tool_name cost_usd]. auto.
Qed.

(** What the REAL column keeps of a cost whose sign bit is clear is not
    negative. *)
Lemma stored_cost_not_negative (x : float) :
  sign_clear x -> not_negative (nstore binary64 x).
Proof.
  intros H. cbn [nstore binary64].
  destruct (x =? 0)%float; [reflexivity|].
  apply sign_clear_not_negative. exact H.
Qed.

(** When upstream reports token counts that are not negative, the broker
    keeps every cost on the ledger not negative. *)
Lemma broker_keeps_costs_not_negative (E : env) (self : GroveCoderServer)
    (tool : string) (a : arguments) (w : World) :
  (forall status body data usage,
      reply E = Response status body ->
      json_loads E body = inl data ->
      method_get data "usage" (VDict []) = Return usage ->
      usage_well_formed usage) ->
  costs_not_negative w ->
  costs_not_negative (snd (_handle_deepseek_call E self tool a w)).
Proof.
  intros Husage Hw. unfold costs_not_negative in *.
  destruct (broker_rows E self tool a w)
    as [Hsame|[row [text [r [Hrows [_ [Hcost [Hpost Hr]]]]]]]].
  - rewrite Hsame. exact Hw.
  - rewrite Hrows. apply Forall_app. split; [exact Hw|].
    constructor; [|constructor]. rewrite Hcost.
    apply stored_cost_not_negative.
    destruct (handle_response_cost E text r Hr)
      as [data [usage [Hdata [Hu Hc]]]].
    unfold post in Hpost. destruct (reply E) as [|status body] eqn:Hreply;
      [discriminate|].
    destruct (is_success status); [|discriminate].
    injection Hpost as ->.
    unfold loads in Hdata.
    destruct (json_loads E text) as [d|] eqn:Hd; [|discriminate].
    injection Hdata as ->.
    destruct (Husage status text data usage eq_refl Hd Hu)
      as [u [i [o [-> [Hi [Ho [Bi Bo]]]]]]].
    exact (calculate_cost_sign_clear u i o _ Hi Ho Bi Bo Hc).
Qed.

(** ** The test suite's ledger, on binary64 *)

Example test_get_report_with_data :
  let w := snd (log_all test_calls empty_ledger) in
  let r := build_report (fetchall (rows w) 0 None) in
  total_requests r = 3
  /\ total_cost_usd r = 0.035%float
  /\ total_cost_usd r = py_round6 (0.01 + 0.02 + 0.005)%float.
Proof. cbv zeta. repeat split; vm_compute; reflexivity. Qed.

(** Binary64 addition is not associative, which is why the totals of
    section [ExactArithmetic] are stated for an exact arithmetic. *)
Example binary64_addition_not_associative :
  ((0.1 + 0.2) + 0.3 =? 0.1 + (0.2 + 0.3))%float = false.
Proof. vm_compute. reflexivity. Qed.

(* ================================================================= *)
(** * Further properties of the code *)

(** ** Grouping and ordering of the fetched rows *)

Section ReportFacts.
Context {A : arith}.
Implicit Types (r : request A) (rs : list (request A)).
Implicit Types (g : sql_row A) (gs : list (sql_row A)).
Implicit Types (key : Z * string).


















End ReportFacts.

(* ================================================================= *)
(** ** Reports over a window *)

Section WindowFacts.
Context {A : arith}.
Implicit Types (w : world A) (r : request A) (rs : list (request A)).

Lemma fetchall_count rs start tool_filter :
  group_count (fetchall rs start tool_filter)
  = Z.of_nat (List.length (filter (selected start tool_filter) rs)).
Proof.
  unfold fetchall, group_by.
  rewrite order_by_count, group_by_count_from. reflexivity.
Qed.




Lemma report_total_requests (fetched : list (sql_row A)) :
  total_requests (build_report fetched) = group_count fetched.
Proof. reflexivity. Qed.


Lemma filter_subset_length {X} (f g : X -> bool) (l : list X) :
  (forall x, f x = true -> g x = true) ->
  (List.length (filter f l) <= List.length (filter g l))%nat.
Proof.
  intros H. induction l as [|x l IH]; cbn [filter]; [lia|].
  destruct (f x) eqn:F.
  - rewrite (H x F). cbn [List.length]. lia.
  - destruct (g x); cbn [List.length]; lia.
Qed.

Lemma selected_earlier (start start' : Z) tool_filter r :
  start' <= start ->
  selected start tool_filter r = true -> selected start' tool_filter r = true.
Proof.
  unfold selected. rewrite !andb_true_iff, !Z.leb_le. intros H [H1 H2].
  split; [lia|exact H2].
Qed.


End WindowFacts.





(** X3: at one instant and with one filter, a narrower window never
    counts more requests than a wider one: today, the last 7 days, the
    last 30 days, all time. *)
Theorem windows_are_nested (A : arith) (w : world A) (now : Z)
    (tool_filter : option string) :
  let count period :=
    total_requests
      (build_report (fetchall (rows w) (start_date_of now period)
                              (effective_filter tool_filter))) in
  count "today" <= count "week" <= count "month"
  /\ count "month" <= count "all".
Proof.
  cbv beta zeta. rewrite !report_total_requests, !fetchall_count.
  cbn [start_date_of String.eqb Ascii.eqb Bool.eqb]. unfold seconds_per_day.
  repeat split; apply inj_le; apply filter_subset_length; intros r.
  - apply selected_earlier.
    pose proof (Z.mul_succ_div_gt now 86400 ltac:(lia)). lia.
  - apply selected_earlier. lia.
  - unfold selected. rewrite !andb_true_iff, !Z.leb_le. intros [_ H].
    split; [apply N2Z.is_nonneg|exact H].
Qed.

(** X4: a request that the store has just logged is counted by the next
    all-time report; the next "today" report counts it exactly when the
    UTC timestamp is not before the local midnight that starts the
    window, and otherwise is the same report as before the request. *)
Theorem logged_request_in_next_report (A : arith) (w w' : world A)
    (utc : N) (now : Z) (tool : string) (cost : num A) (tokens : dict value)
    (path : option string) :
  log_request utc tool cost tokens path w = (Return tt, w') ->
  let report period :=
    build_report (fetchall (rows w) (start_date_of now period) None) in
  let report' period :=
    build_report (fetchall (rows w') (start_date_of now period) None) in
  let midnight := now / seconds_per_day * seconds_per_day in
  total_requests (report' "all") = total_requests (report "all") + 1
  /\ (midnight <= Z.of_N utc ->
      total_requests (report' "today") = total_requests (report "today") + 1)
  /\ (Z.of_N utc < midnight -> report' "today" = report "today").
Proof.
  intros Hlog. cbv beta zeta.
  destruct (log_request_outcome utc tool cost tokens path w)
    as [_ [_ [[e [He _]]|[_ [_ [_ Hrows]]]]]];
    rewrite Hlog in *; cbn [fst snd] in *; [discriminate|].
  rewrite Hrows.
  match goal with
  | |- context [rows w ++ [?x]] => set (row := x)
  end.
  assert (Hsel : forall start,
             selected start None row = (start <=? Z.of_N utc)).
  { intros start. unfold selected, row. cbn [timestamp]. apply andb_true_r. }
  assert (Hcount : forall start,
             group_count (fetchall (rows w ++ [row]) start None)
             = group_count (fetchall (rows w) start None)
               + (if start <=? Z.of_N utc then 1 else 0)).
  { intros start. rewrite !fetchall_count, filter_app, length_app.
    cbn [filter]. rewrite Hsel.
    destruct (start <=? Z.of_N utc); cbn [List.length]; lia. }
  rewrite !report_total_requests, !Hcount.
  change (start_date_of now "all") with 0.
  change (start_date_of now "today")
    with (now / seconds_per_day * seconds_per_day).
  split; [|split].
  - replace (0 <=? Z.of_N utc) with true; [reflexivity|].
    symmetry. apply Z.leb_le, N2Z.is_nonneg.
  - intros H. apply Z.leb_le in H. rewrite H. reflexivity.
  - intros H. apply Z.leb_gt in H. unfold fetchall.
    rewrite filter_app. cbn [filter]. rewrite Hsel, H, app_nil_r.
    reflexivity.
Qed.

Lemma logged_request_in_next_report_witness :
  log_request (A:=binary64) 1700000000 "generate_code" 0.01%float [] None
              empty_ledger
  = (Return tt,
     snd (log_request (A:=binary64) 1700000000 "generate_code" 0.01%float []
                      None empty_ledger))
  /\ total_requests
       (build_report
          (fetchall (rows (snd (log_request (A:=binary64) 1700000000
                                  "generate_code" 0.01%float [] None
                                  empty_ledger)))
                    (start_date_of test_now "all") None))
     = total_requests
         (build_report (fetchall (rows empty_ledger)
                                 (start_date_of test_now "all") None)) + 1.
Proof.
  split; [reflexivity|].
  exact (proj1 (logged_request_in_next_report binary64 empty_ledger _
                  1700000000 test_now "generate_code" 0.01%float [] None
                  eq_refl)).
Defined.

(** X5: a window without any request (an empty ledger, or requests all
    older than the window or of other tools) reports zero requests, a
    total of 0.0 and an empty breakdown. *)
Theorem empty_window_reports_zero (w : World) (now : Z) (period : string)
    (tool_filter : option string) :
  In period VALID_PERIODS ->
  window_rows w now period tool_filter = [] ->
  fst (get_report (A:=binary64) now period tool_filter w)
  = Return {| total_requests := 0;
              total_cost_usd := 0%float : num binary64;
              breakdown := [] |}.
Proof.
  intros Hp Hempty. rewrite (get_report_valid (A:=binary64)) by exact Hp.
  cbn [fst]. unfold fetchall. unfold window_rows in Hempty.
  rewrite Hempty. reflexivity.
Qed.

Lemma empty_window_reports_zero_witness :
  In "today" VALID_PERIODS
  /\ window_rows (one_old_request 0.01%float) test_now "today" None = []
  /\ fst (get_report (A:=binary64) test_now "today" None
                     (one_old_request 0.01%float))
     = Return {| total_requests := 0;
                 total_cost_usd := 0%float : num binary64;
                 breakdown := [] |}.
Proof.
  split; [exact today_is_valid|]. split; [reflexivity|].
  exact (empty_window_reports_zero (one_old_request 0.01%float) test_now
           "today" None today_is_valid eq_refl).
Defined.

(** X6: calls that were all logged are stored after the rows already
    there, which stay as they were: the n-th new row carries the tool,
    cost, path and time of the n-th call, the token counts of its
    "input" and "output" keys (0 for a missing key), and the next id.
    On an empty ledger the ids are 1, 2, ..., strictly increasing. *)
Theorem logged_calls_are_stored (A : arith) (calls : list (logged_call A))
    (w0 w : world A) :
  log_all calls w0 = (Return tt, w) ->
  rows w = rows w0 ++ stored_rows (List.length (rows w0)) calls
  /\ (rows w0 = [] ->
      map id (rows w)
      = map (fun n => N.of_nat n + 1)%N (seq 0 (List.length calls))
      /\ StronglySorted N.lt (map id (rows w))).
Proof.
  intros Hlog.
  assert (Hrows : rows w = rows w0 ++ stored_rows (List.length (rows w0)) calls).
  { revert w0 Hlog. induction calls as [|c calls IH]; intros w0 H.
    - inversion H; subst. cbn. rewrite app_nil_r. reflexivity.
    - cbn [log_all] in H. unfold bind in H.
      destruct (log_request_outcome (call_time c) (call_tool c) (call_cost c)
                  (call_tokens c) (call_path c) w0)
        as [_ [_ [[e [He _]]|[_ [_ [_ Hr]]]]]];
        destruct (log_request _ _ _ _ _ w0) as [[[]|e'] w1];
        cbn [fst snd] in *; try discriminate.
      apply IH in H. rewrite H, Hr, length_app.
      cbn [List.length stored_rows]. unfold stored_row at 1.
      rewrite <- app_assoc.
      replace (List.length (rows w0) + 1)%nat with (S (List.length (rows w0)))
        by lia.
      reflexivity. }
  split; [exact Hrows|]. intros Hempty. rewrite Hrows, Hempty.
  cbn [app List.length].
  assert (Hids : forall n (cs : list (logged_call A)),
             map id (stored_rows n cs)
             = map (fun n => N.of_nat n + 1)%N (seq n (List.length cs))).
  { intros n cs. revert n. induction cs as [|c cs IH]; intros n; cbn.
    - reflexivity.
    - rewrite IH. reflexivity. }
  rewrite Hids. split; [reflexivity|].
  generalize 0%nat. induction (List.length calls) as [|k IH]; intros n; cbn.
  - constructor.
  - constructor; [apply IH|].
    apply Forall_forall. intros x Hx. apply in_map_iff in Hx.
    destruct Hx as [m [<- Hm]]. apply in_seq in Hm. lia.
Qed.

Lemma logged_calls_are_stored_witness :
  log_all test_calls empty_ledger
  = (Return tt, snd (log_all test_calls empty_ledger))
  /\ map id (rows (snd (log_all test_calls empty_ledger))) = [1; 2; 3]%N.
Proof.
  split; [reflexivity|].
  destruct (logged_calls_are_stored binary64 test_calls empty_ledger _ eq_refl)
    as [_ Hids].
  destruct (Hids eq_refl) as [Hmap _]. exact Hmap.
Defined.

(* ================================================================= *)
(** ** Costs of the groups *)

Section GroupCosts.
Context {A : arith}.
Implicit Types (r : request A) (rs : list (request A)).
Implicit Types (g : sql_row A) (gs : list (sql_row A)).
Implicit Types (key : Z * string).









End GroupCosts.







(** ** All-time totals *)




(* ================================================================= *)
(** ** The broker, path by path *)

(** Once admitted, the broker has issued the two admission queries and
    runs the upstream call. *)
Lemma admitted_run (E : env) (self : GroveCoderServer) (tool : string)
    (a : arguments) (w : World) :
  admitted E self w ->
  _handle_deepseek_call E self tool a w
  = (outcome <- try_except
                  (result <- call E (deepseek self) a tool ;; ret (inl result))
                  ValueError_or_RuntimeError
                  (fun msg => ret (inr (text_content (dumps_error msg)))) ;;
     match outcome with
     | inr failure => ret failure
     | inl result =>
         log_request (A:=binary64) (utc_now E) tool (result_cost_usd result)
                     (result_tokens_used result) (arg_lookup a "file_path") ;;;
         ret (text_content (dumps_result result))
     end) (add_events w (admission_queries E)).
Proof.
  intros [Hd Hm]. unfold _handle_deepseek_call.
  unfold bind at 1.
  rewrite (check_cost_limit_valid (A:=binary64)) by exact today_is_valid.
  cbn [nlt binary64]. rewrite Hd. cbn [negb].
  unfold bind at 1.
  rewrite (check_cost_limit_valid (A:=binary64)) by exact month_is_valid.
  cbn [nlt binary64].
  change (totalSpend (add_events w _) (local_now E) "month")
    with (totalSpend w (local_now E) "month").
  rewrite Hm. cbn [negb].
  unfold add_events, admission_queries. cbn [rows writable events].
  rewrite <- app_assoc. reflexivity.
Qed.

Lemma admitted_empty_ledger (E : env) :
  local_now E = test_now -> admitted E test_server empty_ledger.
Proof. intros H. unfold admitted. rewrite H. split; vm_compute; reflexivity. Qed.

Lemma not_a_tool (tool : string) :
  ~ In tool TOOL_NAMES ->
  existsb (String.eqb tool) ["generate_code"; "edit_code"; "review_code"] = false
  /\ String.eqb tool "get_cost_report" = false.
Proof.
  intros H. split.
  - destruct (existsb _ _) eqn:E; [|reflexivity].
    apply existsb_exists in E. destruct E as [t [Hin Heq]].
    apply String.eqb_eq in Heq. subst t. exfalso. apply H.
    unfold TOOL_NAMES. cbn in *. tauto.
  - apply String.eqb_neq. intros ->. apply H. unfold TOOL_NAMES. cbn. tauto.
Qed.

(** X9: a tool name that the server does not list is answered with
    the payload "Unknown tool: <name>"; neither the store nor upstream
    is touched. *)
Theorem unknown_tool_is_refused (E : env) (self : GroveCoderServer)
    (tool : string) (a : arguments) (w : World) :
  ~ In tool TOOL_NAMES ->
  _handle_tool_call E self tool a w
  = (Return (text_content (dumps_error ("Unknown tool: " ++ tool)%string)), w).
Proof.
  intros H. destruct (not_a_tool tool H) as [H1 H2].
  unfold _handle_tool_call. rewrite H1, H2. reflexivity.
Qed.

Lemma unknown_tool_is_refused_witness :
  ~ In "nonexistent" TOOL_NAMES /\
  _handle_tool_call quiet_env test_server "nonexistent" no_args empty_ledger
  = (Return (text_content (dumps_error "Unknown tool: nonexistent")),
     empty_ledger).
Proof.
  assert (H : ~ In "nonexistent" TOOL_NAMES).
  { cbn. intros [H|[H|[H|[H|[]]]]]; discriminate H. }
  split; [exact H|].
  exact (unknown_tool_is_refused quiet_env test_server "nonexistent" no_args
           empty_ledger H).
Defined.

(** An admitted request whose upstream call raises a [ValueError] or a
    [RuntimeError] after the POST is answered with the message of the
    error; the rows stay and nothing is inserted. *)
Lemma upstream_failure_reported (E : env) (self : GroveCoderServer)
    (tool : string) (a : arguments) (w : World) (up : user_prompt)
    (e : exn) (msg : string) :
  admitted E self w ->
  _validate_inputs a tool = Return tt ->
  _build_user_prompt a tool = Return up ->
  (text <~ post E ;; handle_response E text) = Raise e ->
  ValueError_or_RuntimeError e = Some msg ->
  _handle_deepseek_call E self tool a w
  = (Return (text_content (dumps_error msg)),
     add_events w (admission_queries E
                   ++ [UpstreamPost
                         (build_payload (deepseek self)
                            (_get_system_prompt tool a) up tool)])).
Proof.
  intros Hadm Hv Hb Hfail Hmsg. rewrite (admitted_run _ _ _ _ _ Hadm).
  unfold bind, try_except. rewrite call_run, Hv, Hb, Hfail, Hmsg.
  unfold ret, add_events. cbn [rows writable events].
  rewrite <- app_assoc. reflexivity.
Qed.

(** X10: when upstream answers with an error status (4xx or 5xx), the
    call raises "OpenRouter API returned <status>", whatever the body;
    the admitted request is answered with that message as error
    payload, after one POST, and no row is added. *)
Theorem upstream_status_error (E : env) (self : GroveCoderServer)
    (tool : string) (a : arguments) (w : World) (up : user_prompt)
    (status : Z) (body : string) :
  _validate_inputs a tool = Return tt ->
  _build_user_prompt a tool = Return up ->
  reply E = Response status body ->
  400 <= status <= 599 ->
  let msg := ("OpenRouter API returned " ++ str_int status)%string in
  let posted := UpstreamPost (build_payload (deepseek self)
                                (_get_system_prompt tool a) up tool) in
  call E (deepseek self) a tool w
  = (Raise (RuntimeError msg), add_events w [posted])
  /\ (admitted E self w ->
      _handle_deepseek_call E self tool a w
      = (Return (text_content (dumps_error msg)),
         add_events w (admission_queries E ++ [posted]))).
Proof.
  intros Hv Hb Hr Hs. cbv zeta.
  assert (Hpost : post E
                  = Raise (RuntimeError
                             ("OpenRouter API returned " ++ str_int status)%string)).
  { unfold post. rewrite Hr. unfold is_success.
    replace (status <=? 299) with false by (symmetry; apply Z.leb_gt; lia).
    rewrite andb_false_r. reflexivity. }
  split.
  - rewrite call_run, Hv, Hb, Hpost. reflexivity.
  - intros Hadm.
    eapply (upstream_failure_reported E self tool a w up); try eassumption.
    + rewrite Hpost. reflexivity.
    + reflexivity.
Qed.

Lemma upstream_status_error_witness :
  reply env_status_500 = Response 500 "Internal Server Error"
  /\ 400 <= 500 <= 599
  /\ fst (_handle_deepseek_call env_status_500 test_server "generate_code"
                                generate_args empty_ledger)
     = Return (text_content (dumps_error "OpenRouter API returned 500")).
Proof.
  assert (Hs : 400 <= 500 <= 599) by lia.
  split; [reflexivity|]. split; [exact Hs|].
  destruct (upstream_status_error env_status_500 test_server "generate_code"
              generate_args empty_ledger greet_prompt 500
              "Internal Server Error" eq_refl eq_refl eq_refl Hs)
    as [_ Hbroker].
  rewrite Hbroker; [reflexivity|].
  apply admitted_empty_ledger. reflexivity.
Defined.

(** X11: when the POST gets no response, the call raises "Failed to
    connect to OpenRouter API"; the admitted request is answered with
    that message as error payload, after one POST, and no row is added. *)
Theorem upstream_unreachable (E : env) (self : GroveCoderServer)
    (tool : string) (a : arguments) (w : World) (up : user_prompt) :
  _validate_inputs a tool = Return tt ->
  _build_user_prompt a tool = Return up ->
  reply E = NoResponse ->
  let msg := "Failed to connect to OpenRouter API" in
  let posted := UpstreamPost (build_payload (deepseek self)
                                (_get_system_prompt tool a) up tool) in
  call E (deepseek self) a tool w
  = (Raise (RuntimeError msg), add_events w [posted])
  /\ (admitted E self w ->
      _handle_deepseek_call E self tool a w
      = (Return (text_content (dumps_error msg)),
         add_events w (admission_queries E ++ [posted]))).
Proof.
  intros Hv Hb Hr. cbv zeta.
  assert (Hpost : post E = Raise (RuntimeError "Failed to connect to OpenRouter API")).
  { unfold post. rewrite Hr. reflexivity. }
  split.
  - rewrite call_run, Hv, Hb, Hpost. reflexivity.
  - intros Hadm.
    eapply (upstream_failure_reported E self tool a w up); try eassumption.
    + rewrite Hpost. reflexivity.
    + reflexivity.
Qed.

Lemma upstream_unreachable_witness :
  reply quiet_env = NoResponse
  /\ fst (_handle_deepseek_call quiet_env test_server "generate_code"
                                generate_args empty_ledger)
     = Return (text_content
                 (dumps_error "Failed to connect to OpenRouter API")).
Proof.
  split; [reflexivity|].
  destruct (upstream_unreachable quiet_env test_server "generate_code"
              generate_args empty_ledger greet_prompt eq_refl eq_refl eq_refl)
    as [_ Hbroker].
  rewrite Hbroker; [reflexivity|].
  apply admitted_empty_ledger. reflexivity.
Defined.

(** X12: an admitted request whose upstream call succeeds, on a store
    that accepts the write and with a result that the INSERT accepts
    (token counts that can be bound, a cost that is not NaN), is
    answered with the result, and exactly one row is appended: the
    tool, the cost of the result as the column keeps it, its token
    counts, the [file_path] argument, the UTC time and the next id.
    The events are the two admission queries, the POST and the INSERT. *)
Theorem successful_call_is_logged (E : env) (self : GroveCoderServer)
    (tool : string) (a : arguments) (w : World) (r : call_result) :
  admitted E self w ->
  writable w = true ->
  fst (call E (deepseek self) a tool w) = Return r ->
  insert_accepted (A:=binary64) (result_cost_usd r) (result_tokens_used r)
  = true ->
  exists w' posted,
    _handle_deepseek_call E self tool a w
    = (Return (text_content (dumps_result r)), w')
    /\ rows w'
       = rows w
         ++ [ {| id := N.of_nat (List.length (rows w)) + 1;
                 timestamp := utc_now E;
                 tool_name := tool;
                 cost_usd := nstore binary64 (result_cost_usd r);
                 input_tokens := dict_get (result_tokens_used r) "input" (VInt 0);
                 output_tokens := dict_get (result_tokens_used r) "output" (VInt 0);
                 file_path := arg_lookup a "file_path" |} ]
    /\ events w'
       = events w ++ admission_queries E
                  ++ [UpstreamPost posted; StoreInsert tool]
    /\ writable w' = true.
Proof.
  intros Hadm Hw Hcall Hok. rewrite call_run in Hcall.
  destruct (_validate_inputs a tool) eqn:Hv; [|discriminate Hcall].
  destruct (_build_user_prompt a tool) as [up|] eqn:Hb; [|discriminate Hcall].
  cbn [fst] in Hcall.
  rewrite (admitted_run _ _ _ _ _ Hadm).
  unfold bind at 1. unfold try_except, bind at 1.
  rewrite call_run, Hv, Hb, Hcall. cbn [ret].
  unfold bind.
  rewrite (log_request_writable (A:=binary64)) by (exact Hw || exact Hok).
  unfold ret. do 2 eexists. split; [reflexivity|].
  cbn [rows events writable add_events]. rewrite <- !app_assoc. cbn [app].
  repeat split; reflexivity.
Qed.

(** X24: an admitted request whose upstream call succeeds with a result
    that the INSERT does not accept, on a store that takes writes, ends
    in the error of the INSERT, which the broker does not handle:
    [OverflowError] for a token count outside 64 bits, else
    [sqlite3.IntegrityError] for a cost that is NaN.  Upstream was
    posted to, and no row records it. *)
Theorem unstorable_result_escapes (E : env) (self : GroveCoderServer)
    (tool : string) (a : arguments) (w : World) (r : call_result) :
  admitted E self w ->
  writable w = true ->
  fst (call E (deepseek self) a tool w) = Return r ->
  insert_accepted (A:=binary64) (result_cost_usd r) (result_tokens_used r)
  = false ->
  exists e w',
    _handle_deepseek_call E self tool a w = (Raise e, w')
    /\ (e = OverflowError
        \/ e = IntegrityError "NOT NULL constraint failed: requests.cost_usd")
    /\ rows w' = rows w
    /\ List.length (filter is_post (events w'))
       = S (List.length (filter is_post (events w))).
Proof.
  intros Hadm Hw Hcall Hno. rewrite call_run in Hcall.
  destruct (_validate_inputs a tool) eqn:Hv; [|discriminate Hcall].
  destruct (_build_user_prompt a tool) as [up|] eqn:Hb; [|discriminate Hcall].
  cbn [fst] in Hcall.
  assert (Htok : exists input output x y,
             result_tokens_used r = [("input", input); ("output", output)]
             /\ truediv_int input 1000000 = Return x
             /\ truediv_int output 1000000 = Return y).
  { destruct (post E) as [text|]; [|discriminate Hcall].
    exact (handle_response_tokens E text r Hcall). }
  rewrite (admitted_run _ _ _ _ _ Hadm).
  unfold bind at 1. unfold try_except, bind at 1.
  rewrite call_run, Hv, Hb, Hcall. cbn [ret].
  unfold bind.
  match goal with
  | |- context [log_request ?u ?t ?c ?k ?p ?w0] =>
      destruct (log_request_refused (A:=binary64) u t c k p w0 Hw Hno)
        as [e [Hrun He]]; rewrite Hrun
  end.
  exists e. eexists. split; [reflexivity|]. split.
  - destruct Htok as [input [output [x [y [Ht [Hx Hy]]]]]].
    rewrite Ht in He. cbn in He.
    destruct He as [He|[He|He]].
    + left. exact (priced_token_bind_error _ _ _ _ _ Hx He).
    + left. exact (priced_token_bind_error _ _ _ _ _ Hy He).
    + right. exact He.
  - split; [reflexivity|].
    cbn [add_events events admission_queries].
    rewrite !filter_app, !length_app. cbn. lia.
Qed.

Lemma unstorable_result_escapes_witness :
  admitted (env_reporting (VInt (2 ^ 63))) test_server empty_ledger
  /\ writable empty_ledger = true
  /\ (exists r,
        fst (call (env_reporting (VInt (2 ^ 63))) test_client generate_args
                  "generate_code" empty_ledger) = Return r
        /\ insert_accepted (A:=binary64) (result_cost_usd r)
                           (result_tokens_used r) = false)
  /\ exists w',
      _handle_deepseek_call (env_reporting (VInt (2 ^ 63))) test_server
                            "generate_code" generate_args empty_ledger
      = (Raise OverflowError, w')
      /\ rows w' = [].
Proof.
  assert (Hadm : admitted (env_reporting (VInt (2 ^ 63))) test_server
                          empty_ledger).
  { apply admitted_empty_ledger. reflexivity. }
  assert (Hcall : exists r,
             fst (call (env_reporting (VInt (2 ^ 63))) (deepseek test_server)
                       generate_args "generate_code" empty_ledger) = Return r
             /\ insert_accepted (A:=binary64) (result_cost_usd r)
                                (result_tokens_used r) = false).
  { eexists. split; [vm_compute; reflexivity|]. vm_compute. reflexivity. }
  split; [exact Hadm|]. split; [reflexivity|]. split; [exact Hcall|].
  destruct Hcall as [r [Hcall Hno]].
  destruct (unstorable_result_escapes (env_reporting (VInt (2 ^ 63)))
              test_server "generate_code" generate_args empty_ledger r
              Hadm eq_refl Hcall Hno) as [e [w' [Hrun [_ [Hrows _]]]]].
  exists w'. split; [|exact Hrows].
  rewrite Hrun. f_equal.
  assert (H : fst (_handle_deepseek_call (env_reporting (VInt (2 ^ 63)))
                     test_server "generate_code" generate_args empty_ledger)
              = Raise OverflowError) by (vm_compute; reflexivity).
  rewrite Hrun in H. exact H.
Defined.

(** A usage block whose prompt tokens are NaN prices the call at NaN,
    which the NOT NULL column refuses. *)
Example nan_cost_is_refused :
  fst (_handle_deepseek_call (env_reporting (VFloat nan)) test_server
                             "generate_code" generate_args empty_ledger)
  = Raise (IntegrityError "NOT NULL constraint failed: requests.cost_usd").
Proof. vm_compute. reflexivity. Qed.

Lemma successful_call_is_logged_witness :
  admitted (env_replying good_content_text good_content) test_server
           empty_ledger
  /\ writable empty_ledger = true
  /\ exists r w',
      fst (call (env_replying good_content_text good_content) test_client
                generate_args "generate_code" empty_ledger) = Return r
      /\ insert_accepted (A:=binary64) (result_cost_usd r)
                         (result_tokens_used r) = true
      /\ _handle_deepseek_call (env_replying good_content_text good_content)
                               test_server "generate_code" generate_args
                               empty_ledger
         = (Return (text_content (dumps_result r)), w')
      /\ map tool_name (rows w') = ["generate_code"]
      /\ map cost_usd (rows w') = [4.4e-05%float : num binary64]
      /\ map id (rows w') = [1%N].
Proof.
  assert (Hadm : admitted (env_replying good_content_text good_content)
                          test_server empty_ledger).
  { apply admitted_empty_ledger. reflexivity. }
  split; [exact Hadm|]. split; [reflexivity|].
  assert (Hcall : exists r,
             fst (call (env_replying good_content_text good_content)
                       (deepseek test_server) generate_args "generate_code"
                       empty_ledger) = Return r
             /\ insert_accepted (A:=binary64) (result_cost_usd r)
                                (result_tokens_used r) = true
             /\ nstore binary64 (result_cost_usd r) = 4.4e-05%float).
  { eexists. split; [vm_compute; reflexivity|].
    split; vm_compute; reflexivity. }
  destruct Hcall as [r [Hcall [Hok Hcost]]].
  destruct (successful_call_is_logged
              (env_replying good_content_text good_content) test_server
              "generate_code" generate_args empty_ledger r Hadm eq_refl Hcall
              Hok)
    as [w' [posted [Hrun [Hrows _]]]].
  exists r, w'. split; [exact Hcall|]. split; [exact Hok|].
  split; [exact Hrun|].
  rewrite Hrows. cbn [map app rows empty_ledger tool_name cost_usd id].
  rewrite Hcost. repeat split; reflexivity.
Defined.

(* ================================================================= *)
(** ** Effects of a tool call *)

(** What a generate, edit or review request does to the world, on every
    path: the events it adds hold at most one POST and no INSERT without
    a POST; the rows stay, or one row is appended. *)
Lemma deepseek_call_effects (E : env) (self : GroveCoderServer) (tool : string)
    (a : arguments) (w : World) :
  let w' := snd (_handle_deepseek_call E self tool a w) in
  writable w' = writable w
  /\ exists evs,
      new_events w w' evs
      /\ (List.length (filter is_insert evs)
          <= List.length (filter is_post evs) <= 1)%nat
      /\ (rows w' = rows w
          \/ exists row,
              rows w' = rows w ++ [row]
              /\ id row = (N.of_nat (List.length (rows w)) + 1)%N
              /\ timestamp row = utc_now E
              /\ tool_name row = tool
              /\ List.length (filter is_insert evs) = 1%nat).
Proof.
  cbv zeta. unfold new_events, _handle_deepseek_call, bind.
  rewrite !(check_cost_limit_valid (A:=binary64)) by exact today_is_valid.
  destruct (negb _).
  { cbn [snd ret add_events writable rows events]. split; [reflexivity|].
    eexists. split; [reflexivity|]. cbn. split; [lia|left; reflexivity]. }
  rewrite !(check_cost_limit_valid (A:=binary64)) by exact month_is_valid.
  destruct (negb _).
  { cbn [snd ret add_events writable rows events]. split; [reflexivity|].
    rewrite <- ?app_assoc.
    eexists. split; [reflexivity|]. cbn. split; [lia|left; reflexivity]. }
  unfold try_except, bind. rewrite call_run.
  destruct (_validate_inputs a tool) as [[]|e].
  2:{ destruct (ValueError_or_RuntimeError e);
      cbn [snd ret add_events writable rows events];
      (split; [reflexivity|]); rewrite <- ?app_assoc;
      (eexists; split; [reflexivity|]); cbn; (split; [lia|left; reflexivity]). }
  destruct (_build_user_prompt a tool) as [up|e].
  2:{ destruct (ValueError_or_RuntimeError e);
      cbn [snd ret add_events writable rows events];
      (split; [reflexivity|]); rewrite <- ?app_assoc;
      (eexists; split; [reflexivity|]); cbn; (split; [lia|left; reflexivity]). }
  destruct (text <~ post E ;; handle_response E text) as [r|e].
  2:{ destruct (ValueError_or_RuntimeError e);
      cbn [snd ret add_events writable rows events];
      (split; [reflexivity|]); rewrite <- ?app_assoc;
      (eexists; split; [reflexivity|]); cbn; (split; [lia|left; reflexivity]). }
  cbn [ret].
  match goal with
  | |- context [log_request ?u ?t ?c ?k ?p ?w0] =>
      destruct (log_request_outcome (A:=binary64) u t c k p w0)
        as [Hwr [Hev Hout]];
      destruct (log_request (A:=binary64) u t c k p w0) as [res w1]
  end.
  cbn [fst snd add_events writable rows events] in Hwr, Hev, Hout.
  rewrite <- !app_assoc in Hev.
  destruct res as [[]|e]; cbn [snd ret];
    (split; [exact Hwr|]); (eexists; split; [exact Hev|]); cbn;
    (split; [lia|]);
    destruct Hout as [[e' [He Hrows]]|[Hret [_ [_ Hrows]]]];
    try discriminate.
  - right. eexists. rewrite Hrows. repeat split; reflexivity.
  - left. exact Hrows.
Qed.

(** The same for a report query: at most one store query, nothing else. *)
Lemma cost_report_effects (E : env) (self : GroveCoderServer) (a : arguments)
    (w : World) :
  let w' := snd (_handle_cost_report E self a w) in
  rows w' = rows w /\ writable w' = writable w
  /\ exists evs, new_events w w' evs
                 /\ filter is_post evs = [] /\ filter is_insert evs = []
                 /\ (List.length evs <= 1)%nat.
Proof.
  cbv zeta. unfold new_events, _handle_cost_report, bind, get_report.
  destruct (negb _).
  - cbn [snd raise]. repeat split. exists []. rewrite app_nil_r. cbn. auto.
  - unfold bind, emit. cbn [snd ret add_events rows writable events].
    repeat split. eexists. split; [reflexivity|]. cbn. auto.
Qed.

(** X13: the ledger is append-only under every tool call, whatever the
    tool name, the arguments, the upstream reply and the outcome: the
    rows already there stay as they were, and at most one row is
    appended, with the next id, the UTC time of the call and the name of
    the tool.  A report query or an unknown tool appends nothing. *)
Theorem tool_call_appends_at_most_one_row (E : env) (self : GroveCoderServer)
    (tool : string) (a : arguments) (w : World) :
  let w' := snd (_handle_tool_call E self tool a w) in
  (rows w' = rows w
   \/ exists row,
       rows w' = rows w ++ [row]
       /\ id row = (N.of_nat (List.length (rows w)) + 1)%N
       /\ timestamp row = utc_now E
       /\ tool_name row = tool
       /\ In tool ["generate_code"; "edit_code"; "review_code"])
  /\ writable w' = writable w.
Proof.
  cbv zeta. unfold _handle_tool_call.
  destruct (existsb _ _) eqn:Htool.
  - destruct (deepseek_call_effects E self tool a w)
      as [Hw [evs [_ [_ [Hsame|[row [Hr [Hi [Ht [Hn _]]]]]]]]]].
    + split; [left; exact Hsame|exact Hw].
    + split; [|exact Hw]. right. exists row. repeat split; try assumption.
      apply existsb_exists in Htool. destruct Htool as [t [Hin Heq]].
      apply String.eqb_eq in Heq. subst t. exact Hin.
  - destruct (String.eqb tool "get_cost_report").
    + destruct (cost_report_effects E self a w) as [Hr [Hw _]].
      split; [left; exact Hr|exact Hw].
    + cbn. split; [left|]; reflexivity.
Qed.

(** X14: no tool call posts upstream more than once (no retry), and
    none inserts into the store without having posted first nor more
    than once; a report query and an unknown tool neither post nor
    insert. *)
Theorem tool_call_posts_at_most_once (E : env) (self : GroveCoderServer)
    (tool : string) (a : arguments) (w : World) :
  let w' := snd (_handle_tool_call E self tool a w) in
  exists evs,
    new_events w w' evs
    /\ (List.length (filter is_insert evs)
        <= List.length (filter is_post evs) <= 1)%nat
    /\ (~ In tool ["generate_code"; "edit_code"; "review_code"] ->
        filter is_post evs = [] /\ filter is_insert evs = []).
Proof.
  cbv zeta. unfold _handle_tool_call.
  destruct (existsb _ _) eqn:Htool.
  - destruct (deepseek_call_effects E self tool a w)
      as [_ [evs [Hev [Hle _]]]].
    exists evs. split; [exact Hev|]. split; [exact Hle|].
    intros Hnot. exfalso. apply Hnot.
    apply existsb_exists in Htool. destruct Htool as [t [Hin Heq]].
    apply String.eqb_eq in Heq. subst t. exact Hin.
  - destruct (String.eqb tool "get_cost_report").
    + destruct (cost_report_effects E self a w)
        as [_ [_ [evs [Hev [Hp [Hi _]]]]]].
      exists evs. split; [exact Hev|]. rewrite Hp, Hi. cbn. auto.
    + exists []. unfold new_events. cbn. rewrite app_nil_r. auto.
Qed.

(* ================================================================= *)
(** ** Validation, arguments and replies *)

Lemma validate_keys_accepts_iff (a : arguments) (keys : list string) (limit : Z) :
  0 <= limit ->
  validate_keys a keys limit = Return tt
  <-> forall key, In key keys -> len (arg_get a key "") <= limit.
Proof.
  intros H0. split.
  - intros Hok key Hin.
    destruct (Z_le_gt_dec (len (arg_get a key "")) limit) as [Hle|Hgt];
      [exact Hle|].
    exfalso. apply (validate_keys_complete a keys limit key H0 Hin); [lia|exact Hok].
  - intros Hall.
    destruct (validate_keys_outcome a keys limit) as [Hok|[key [Hin [Hlen _]]]];
      [exact Hok|].
    specialize (Hall key Hin). lia.
Qed.

(** X15: the inputs are accepted exactly when every large field (code,
    original_code, context) has at most 100,000 characters and every
    short one (task_description, change_request) at most 10,000; a
    field of exactly the limit passes, a missing field counts as empty,
    and the tool name plays no part. *)
Theorem validate_inputs_accepts_iff (a : arguments) (tool : string) :
  _validate_inputs a tool = Return tt
  <-> (forall key, In key code_keys ->
                   len (arg_get a key "") <= MAX_CODE_LENGTH)
      /\ (forall key, In key description_keys ->
                      len (arg_get a key "") <= MAX_DESCRIPTION_LENGTH).
Proof.
  rewrite <- (validate_keys_accepts_iff a code_keys MAX_CODE_LENGTH)
    by (unfold MAX_CODE_LENGTH; lia).
  rewrite <- (validate_keys_accepts_iff a description_keys MAX_DESCRIPTION_LENGTH)
    by (unfold MAX_DESCRIPTION_LENGTH; lia).
  unfold _validate_inputs, rbind.
  destruct (validate_keys a code_keys MAX_CODE_LENGTH) as [[]|e].
  - tauto.
  - split; [discriminate|]. intros [H _]. discriminate H.
Qed.

(** X16: when the argument that a tool reads first is missing
    (task_description for generate_code, original_code for edit_code,
    code for review_code), the call raises [KeyError] before anything is
    posted, and the broker does not handle it: the admitted request
    ends in that exception, with no POST and no row. *)
Theorem missing_required_argument (E : env) (self : GroveCoderServer)
    (tool key : string) (a : arguments) (w : World) :
  first_required tool key ->
  arg_lookup a key = None ->
  _validate_inputs a tool = Return tt ->
  call E (deepseek self) a tool w = (Raise (KeyError key), w)
  /\ (admitted E self w ->
      _handle_deepseek_call E self tool a w
      = (Raise (KeyError key), add_events w (admission_queries E))).
Proof.
  intros Hreq Hmiss Hv.
  assert (Hb : _build_user_prompt a tool = Raise (KeyError key)).
  { destruct Hreq as [[-> ->]|[[-> ->]|[-> ->]]];
      unfold _build_user_prompt, arg_item;
      cbn [String.eqb Ascii.eqb Bool.eqb]; rewrite Hmiss; reflexivity. }
  assert (Hcall : forall w1 : World,
             call E (deepseek self) a tool w1 = (Raise (KeyError key), w1)).
  { intros w1. rewrite call_run, Hv, Hb. reflexivity. }
  split; [apply Hcall|].
  intros Hadm. rewrite (admitted_run _ _ _ _ _ Hadm).
  unfold bind, try_except. rewrite Hcall. reflexivity.
Qed.

Lemma missing_required_argument_witness :
  first_required "generate_code" "task_description" /\
  arg_lookup no_args "task_description" = None /\
  _validate_inputs no_args "generate_code" = Return tt /\
  call quiet_env (deepseek test_server) no_args "generate_code" empty_ledger
  = (Raise (KeyError "task_description"), empty_ledger)
  /\ (admitted quiet_env test_server empty_ledger ->
      _handle_deepseek_call quiet_env test_server "generate_code" no_args
                            empty_ledger
      = (Raise (KeyError "task_description"),
         add_events empty_ledger (admission_queries quiet_env))).
Proof.
  assert (H : first_required "generate_code" "task_description").
  { left. split; reflexivity. }
  split; [exact H|]. split; [reflexivity|]. split; [reflexivity|].
  exact (missing_required_argument quiet_env test_server "generate_code"
           "task_description" no_args empty_ledger H eq_refl eq_refl).
Defined.

(** An admitted request whose upstream call raises, after the POST, an
    exception that is neither a [ValueError] nor a [RuntimeError] ends
    in that exception; the rows stay and nothing is inserted. *)
Lemma upstream_exception_escapes (E : env) (self : GroveCoderServer)
    (tool : string) (a : arguments) (w : World) (up : user_prompt) (e : exn) :
  admitted E self w ->
  _validate_inputs a tool = Return tt ->
  _build_user_prompt a tool = Return up ->
  (text <~ post E ;; handle_response E text) = Raise e ->
  ValueError_or_RuntimeError e = None ->
  _handle_deepseek_call E self tool a w
  = (Raise e,
     add_events w (admission_queries E
                   ++ [UpstreamPost
                         (build_payload (deepseek self)
                            (_get_system_prompt tool a) up tool)])).
Proof.
  intros Hadm Hv Hb Hfail Hnone. rewrite (admitted_run _ _ _ _ _ Hadm).
  unfold bind, try_except. rewrite call_run, Hv, Hb, Hfail, Hnone.
  unfold add_events. cbn [rows writable events].
  rewrite <- app_assoc. reflexivity.
Qed.

(** X17: when the 2xx body decodes but the content of the message is
    not text (a null content, say), or an element on the path to it has
    the wrong type, the call raises [TypeError]; the broker does not
    handle it: the admitted request ends in that exception after the
    POST, and no row is added. *)
Theorem content_not_text_escapes (E : env) (self : GroveCoderServer)
    (tool : string) (a : arguments) (w : World) (up : user_prompt)
    (status : Z) (body : string) (data : value) :
  _validate_inputs a tool = Return tt ->
  _build_user_prompt a tool = Return up ->
  reply E = Response status body ->
  is_success status = true ->
  json_loads E body = inl data ->
  (exists v, raw_content_of data = Return v /\ forall s, v <> VStr s)
  \/ raw_content_of data = Raise TypeError ->
  let posted := UpstreamPost (build_payload (deepseek self)
                                (_get_system_prompt tool a) up tool) in
  call E (deepseek self) a tool w = (Raise TypeError, add_events w [posted])
  /\ (admitted E self w ->
      _handle_deepseek_call E self tool a w
      = (Raise TypeError, add_events w (admission_queries E ++ [posted]))).
Proof.
  intros Hv Hb Hr Hs Hbody Hshape. cbv zeta.
  assert (Hfail : (text <~ post E ;; handle_response E text) = Raise TypeError).
  { rewrite (post_success E status body Hr Hs). cbn [rbind].
    unfold handle_response, loads. rewrite Hbody. cbn [rbind].
    unfold extract_content.
    destruct Hshape as [[v [Hraw Hv']]|Hraw]; rewrite Hraw; cbn [rbind].
    - destruct v; try reflexivity. exfalso. apply (Hv' s). reflexivity.
    - reflexivity. }
  split.
  - rewrite call_run, Hv, Hb, Hfail. reflexivity.
  - intros Hadm.
    apply (upstream_exception_escapes E self tool a w up TypeError Hadm Hv Hb Hfail).
    reflexivity.
Qed.

Lemma content_not_text_escapes_witness :
  reply env_null_content = Response 200 "BODY" /\
  json_loads env_null_content "BODY" = inl null_content_body /\
  raw_content_of null_content_body = Return VNone /\
  call env_null_content (deepseek test_server) generate_args "generate_code"
       empty_ledger
  = (Raise TypeError,
     add_events empty_ledger
       [UpstreamPost (build_payload (deepseek test_server)
                        (_get_system_prompt "generate_code" generate_args)
                        greet_prompt "generate_code")])
  /\ (admitted env_null_content test_server empty_ledger ->
      _handle_deepseek_call env_null_content test_server "generate_code"
                            generate_args empty_ledger
      = (Raise TypeError,
         add_events empty_ledger
           (admission_queries env_null_content
            ++ [UpstreamPost (build_payload (deepseek test_server)
                                (_get_system_prompt "generate_code" generate_args)
                                greet_prompt "generate_code")]))).
Proof.
  repeat (split; [reflexivity|]).
  apply (content_not_text_escapes env_null_content test_server "generate_code"
           generate_args empty_ledger greet_prompt 200 "BODY" null_content_body
           eq_refl eq_refl eq_refl eq_refl eq_refl).
  left. exists VNone. split; [reflexivity|]. intros s H. discriminate H.
Defined.

(** X18: when the 2xx body is not JSON, the decoder's error leaves the
    call as it is (a [ValueError] by class, not the unparseable-response
    error); the admitted request is answered with the decoder's message
    as error payload, after the POST, and no row is added. *)
Theorem undecodable_body_reported (E : env) (self : GroveCoderServer)
    (tool : string) (a : arguments) (w : World) (up : user_prompt)
    (status : Z) (body msg : string) :
  _validate_inputs a tool = Return tt ->
  _build_user_prompt a tool = Return up ->
  reply E = Response status body ->
  is_success status = true ->
  json_loads E body = inr msg ->
  let posted := UpstreamPost (build_payload (deepseek self)
                                (_get_system_prompt tool a) up tool) in
  call E (deepseek self) a tool w
  = (Raise (JSONDecodeError msg), add_events w [posted])
  /\ (admitted E self w ->
      _handle_deepseek_call E self tool a w
      = (Return (text_content (dumps_error msg)),
         add_events w (admission_queries E ++ [posted]))).
Proof.
  intros Hv Hb Hr Hs Hbody. cbv zeta.
  assert (Hfail : (text <~ post E ;; handle_response E text)
                  = Raise (JSONDecodeError msg)).
  { rewrite (post_success E status body Hr Hs). cbn [rbind].
    unfold handle_response, loads. rewrite Hbody. reflexivity. }
  split.
  - rewrite call_run, Hv, Hb, Hfail. reflexivity.
  - intros Hadm.
    eapply (upstream_failure_reported E self tool a w up); try eassumption.
    reflexivity.
Qed.

Lemma undecodable_body_reported_witness :
  reply env_plain_text = Response 200 "Service is warming up" /\
  is_success 200 = true /\
  json_loads env_plain_text "Service is warming up"
  = inr "Expecting value: line 1 column 1 (char 0)" /\
  (admitted env_plain_text test_server empty_ledger ->
   _handle_deepseek_call env_plain_text test_server "generate_code"
                         generate_args empty_ledger
   = (Return (text_content
                (dumps_error "Expecting value: line 1 column 1 (char 0)")),
      add_events empty_ledger
        (admission_queries env_plain_text
         ++ [UpstreamPost (build_payload (deepseek test_server)
                             (_get_system_prompt "generate_code" generate_args)
                             greet_prompt "generate_code")]))).
Proof.
  repeat (split; [reflexivity|]).
  apply (proj2 (undecodable_body_reported env_plain_text test_server
                  "generate_code" generate_args empty_ledger greet_prompt 200
                  "Service is warming up"
                  "Expecting value: line 1 column 1 (char 0)"
                  eq_refl eq_refl eq_refl eq_refl eq_refl)).
Defined.

(** X19: for a usage block whose token counts are integers and not
    negative, the computed cost is never below zero. *)
Theorem cost_is_not_negative (usage : value) (cost : float) :
  usage_well_formed usage ->
  _calculate_cost usage = Return cost ->
  not_negative cost.
Proof.
  intros [u [i [o [-> [Hi [Ho [Bi Bo]]]]]]] Hc.
  apply sign_clear_not_negative.
  exact (calculate_cost_sign_clear u i o cost Hi Ho Bi Bo Hc).
Qed.

Lemma cost_is_not_negative_witness :
  usage_well_formed (VDict [("prompt_tokens", VInt 100)]) /\
  _calculate_cost (VDict [("prompt_tokens", VInt 100)])
  = Return 2.5e-05%float /\
  not_negative 2.5e-05%float.
Proof.
  assert (H : usage_well_formed (VDict [("prompt_tokens", VInt 100)])).
  { exists [("prompt_tokens", VInt 100)], 100, 0.
    repeat split; try reflexivity; lia. }
  split; [exact H|]. split; [vm_compute; reflexivity|].
  apply (cost_is_not_negative (VDict [("prompt_tokens", VInt 100)])
           2.5e-05%float H).
  vm_compute. reflexivity.
Defined.

(** X20: when upstream reports token counts that are integers and not
    negative, no tool call puts a negative cost on a ledger that had
    none. *)
Theorem tool_call_keeps_costs_not_negative (E : env) (self : GroveCoderServer)
    (tool : string) (a : arguments) (w : World) :
  (forall status body data usage,
      reply E = Response status body ->
      json_loads E body = inl data ->
      method_get data "usage" (VDict []) = Return usage ->
      usage_well_formed usage) ->
  costs_not_negative w ->
  costs_not_negative (snd (_handle_tool_call E self tool a w)).
Proof.
  intros Husage Hw. unfold _handle_tool_call.
  destruct (existsb _ _).
  - apply broker_keeps_costs_not_negative; assumption.
  - destruct (String.eqb tool "get_cost_report").
    + destruct (cost_report_effects E self a w) as [Hr _].
      unfold costs_not_negative. rewrite Hr. exact Hw.
    + exact Hw.
Qed.

Lemma tool_call_keeps_costs_not_negative_witness :
  costs_not_negative empty_ledger
  /\ costs_not_negative
       (snd (_handle_tool_call (env_replying good_content_text good_content)
               test_server "generate_code" generate_args empty_ledger)).
Proof.
  assert (H0 : costs_not_negative empty_ledger).
  { apply Forall_nil. }
  split; [exact H0|].
  apply tool_call_keeps_costs_not_negative; [|exact H0].
  intros status body data usage Hreply Hdata Husage.
  cbn in Hreply. injection Hreply as <- <-.
  vm_compute in Hdata. injection Hdata as <-.
  vm_compute in Husage. injection Husage as <-.
  exists [("prompt_tokens", VInt 100); ("completion_tokens", VInt 50)], 100, 50.
  repeat split; try reflexivity; lia.
Defined.

(** X21: for each tool that the server lists, building the user prompt
    can fail only with a [KeyError] on a key that the tool's schema
    declares as required and that the arguments lack; with all the
    required arguments present the prompt is built. *)
Theorem prompt_needs_only_required_arguments (t : Tool) (a : arguments) :
  In t _build_tool_list ->
  ((forall key, In key (required t) -> arg_lookup a key <> None) ->
   exists up, _build_user_prompt a (name t) = Return up)
  /\ (forall e, _build_user_prompt a (name t) = Raise e ->
        exists key, e = KeyError key
                    /\ In key (required t)
                    /\ arg_lookup a key = None).
Proof.
  intros Ht.
  assert (H : (exists up, _build_user_prompt a (name t) = Return up)
              \/ exists key, _build_user_prompt a (name t) = Raise (KeyError key)
                             /\ In key (required t)
                             /\ arg_lookup a key = None).
  { cbn [_build_tool_list In] in Ht.
    destruct Ht as [<-|[<-|[<-|[<-|[]]]]];
      cbn [name required]; unfold _build_user_prompt, arg_item;
      cbn [String.eqb Ascii.eqb Bool.eqb rbind].
    - destruct (arg_lookup a "task_description") eqn:H1; cbn [rbind].
      + left. eexists. reflexivity.
      + right. exists "task_description". cbn [In]. auto.
    - destruct (arg_lookup a "original_code") eqn:H1; cbn [rbind].
      + destruct (arg_lookup a "change_request") eqn:H2; cbn [rbind].
        * left. eexists. reflexivity.
        * right. exists "change_request". cbn [In]. auto.
      + right. exists "original_code". cbn [In]. auto.
    - destruct (arg_lookup a "code") eqn:H1; cbn [rbind].
      + left. eexists. reflexivity.
      + right. exists "code". cbn [In]. auto.
    - left. eexists. reflexivity. }
  split.
  - intros Hall. destruct H as [H|[key [_ [Hin Hnone]]]]; [exact H|].
    exfalso. exact (Hall key Hin Hnone).
  - intros e He. destruct H as [[up Hup]|[key [Hk [Hin Hnone]]]].
    + rewrite Hup in He. discriminate He.
    + rewrite Hk in He. injection He as <-. exists key. auto.
Qed.

Lemma prompt_needs_only_required_arguments_witness :
  In generate_code_tool _build_tool_list
  /\ exists up, _build_user_prompt generate_args "generate_code" = Return up.
Proof.
  assert (H : In generate_code_tool _build_tool_list) by (left; reflexivity).
  split; [exact H|].
  apply (proj1 (prompt_needs_only_required_arguments generate_code_tool
                  generate_args H)).
  intros key Hin.
  destruct Hin as [<-|[<-|[]]]; discriminate.
Defined.

(* ================================================================= *)
(** ** Loading the configuration *)

Lemma dict_lookup_set {A} (d : dict A) (key key' : string) (v : A) :
  dict_lookup (dict_set d key v) key'
  = if String.eqb key key' then Some v else dict_lookup d key'.
Proof.
  induction d as [|[k x] d IH]; cbn [dict_set dict_lookup].
  - reflexivity.
  - destruct (String.eqb k key) eqn:Hk; cbn [dict_lookup].
    + apply String.eqb_eq in Hk. subst k.
      destruct (String.eqb key key'); reflexivity.
    + rewrite IH. destruct (String.eqb k key') eqn:Hk'.
      * apply String.eqb_eq in Hk'. subst k. rewrite String.eqb_sym, Hk.
        reflexivity.
      * reflexivity.
Qed.

Lemma override_object (var : option string) (key : string) (d : dict value) :
  exists d',
    override var key (VDict d) = Return (VDict d')
    /\ forall key',
        dict_lookup d' key'
        = or_else (if String.eqb key key'
                   then match var with
                        | Some s => if truthy s then Some (VStr s) else None
                        | None => None
                        end
                   else None)
                  (dict_lookup d key').
Proof.
  unfold override. destruct var as [s|].
  - destruct (truthy s).
    + eexists. split; [reflexivity|]. intros key'. rewrite dict_lookup_set.
      destruct (String.eqb key key'); reflexivity.
    + exists d. split; [reflexivity|]. intros key'.
      destruct (String.eqb key key'); reflexivity.
  - exists d. split; [reflexivity|]. intros key'.
    destruct (String.eqb key key'); reflexivity.
Qed.

Lemma apply_defaults_object (defaults d : dict value) :
  exists d',
    apply_defaults defaults (VDict d) = Return (VDict d')
    /\ forall key,
        dict_lookup d' key
        = or_else (dict_lookup d key) (dict_lookup defaults key).
Proof.
  revert d. induction defaults as [|[k v] rest IH]; intros d;
    cbn [apply_defaults contains rbind].
  - exists d. split; [reflexivity|]. intros key.
    destruct (dict_lookup d key); reflexivity.
  - destruct (dict_lookup d k) eqn:Hk; cbn [rbind setitem].
    + destruct (IH d) as [d' [Hrun Hd']]. exists d'. split; [exact Hrun|].
      intros key. rewrite Hd'. cbn [dict_lookup].
      destruct (String.eqb k key) eqn:E; [|reflexivity].
      apply String.eqb_eq in E. subst key. rewrite Hk. reflexivity.
    + destruct (IH (dict_set d k v)) as [d' [Hrun Hd']]. exists d'.
      split; [exact Hrun|].
      intros key. rewrite Hd', dict_lookup_set. cbn [dict_lookup].
      destruct (String.eqb k key) eqn:E.
      * apply String.eqb_eq in E. subst key. rewrite Hk. reflexivity.
      * reflexivity.
Qed.

(** X22: when there is no secrets file, or the file holds a JSON
    object, loading succeeds with a dict in which every key has the
    value of the environment if a non-empty variable stands for it
    (OPENROUTER_API_KEY for openrouter_api_key, GROVE_CODER_WORKER_MODEL
    for worker_model), else the value of the file, else the built-in
    default; a key with none of the three is absent.  An empty variable
    counts as unset, and a value of the file is taken whole: the default
    cost limits are not merged into a partial cost_limits object. *)
Theorem load_secrets_precedence (file : secrets_file) (env : environ)
    (d : dict value) :
  file_object file = Some d ->
  exists secrets,
    load_secrets file env = Return (VDict secrets)
    /\ forall key,
        dict_lookup secrets key
        = or_else (environ_value env key)
                  (or_else (dict_lookup d key) (dict_lookup DEFAULTS key)).
Proof.
  intros Hfile.
  assert (Hload : load_secrets file env
                  = (secrets <~ override (OPENROUTER_API_KEY env)
                                         "openrouter_api_key" (VDict d) ;;
                     secrets <~ override (GROVE_CODER_WORKER_MODEL env)
                                         "worker_model" secrets ;;
                     apply_defaults DEFAULTS secrets)).
  { unfold load_secrets. destruct file as [[v|msg]|]; cbn in Hfile.
    - destruct v; try discriminate Hfile. injection Hfile as ->. reflexivity.
    - discriminate Hfile.
    - injection Hfile as <-. reflexivity. }
  rewrite Hload.
  destruct (override_object (OPENROUTER_API_KEY env) "openrouter_api_key" d)
    as [d1 [H1 L1]].
  destruct (override_object (GROVE_CODER_WORKER_MODEL env) "worker_model" d1)
    as [d2 [H2 L2]].
  destruct (apply_defaults_object DEFAULTS d2) as [d3 [H3 L3]].
  exists d3. rewrite H1. cbn [rbind]. rewrite H2. cbn [rbind].
  split; [exact H3|].
  intros key. rewrite L3, L2, L1. unfold environ_value.
  destruct (String.eqb "openrouter_api_key" key) eqn:Ek.
  - apply String.eqb_eq in Ek. subst key. cbn [String.eqb Ascii.eqb Bool.eqb].
    destruct (OPENROUTER_API_KEY env) as [s|]; [destruct (truthy s)|];
      reflexivity.
  - rewrite String.eqb_sym in Ek. rewrite Ek.
    destruct (String.eqb "worker_model" key) eqn:Em.
    + rewrite String.eqb_sym in Em. rewrite Em.
      destruct (GROVE_CODER_WORKER_MODEL env) as [s|]; [destruct (truthy s)|];
        reflexivity.
    + rewrite String.eqb_sym in Em. rewrite Em. reflexivity.
Qed.

Lemma load_secrets_precedence_witness :
  file_object example_secrets_file
  = Some [ ("openrouter_api_key", VStr "file-key");
           ("cost_limits", VDict [("daily_usd", VFloat 5.0)]) ]
  /\ exists secrets,
      load_secrets example_secrets_file example_environ = Return (VDict secrets)
      /\ dict_lookup secrets "openrouter_api_key" = Some (VStr "env-key")
      /\ dict_lookup secrets "worker_model"
         = Some (VStr "deepseek/deepseek-v3.2")
      /\ dict_lookup secrets "cost_limits"
         = Some (VDict [("daily_usd", VFloat 5.0)]).
Proof.
  split; [reflexivity|].
  destruct (load_secrets_precedence example_secrets_file example_environ _
              eq_refl) as [secrets [Hrun Hlook]].
  exists secrets. split; [exact Hrun|].
  repeat split; rewrite Hlook; reflexivity.
Defined.

(** X23: a secrets file that holds null, true, false or a number
    makes loading raise [TypeError], and one that is not JSON makes it
    raise the decoder's error; the environment variables do not stand
    in for the file. *)
Theorem load_secrets_bad_file (v : value) (env : environ) :
  not_a_container v = true ->
  load_secrets (Some (inl v)) env = Raise TypeError
  /\ forall msg, load_secrets (Some (inr msg)) env = Raise (JSONDecodeError msg).
Proof.
  intros Hv. split; [|reflexivity].
  unfold load_secrets. cbn [rbind].
  assert (Hset : forall key x, setitem v key x = Raise TypeError).
  { intros key x. destruct v; try discriminate Hv; reflexivity. }
  assert (Hover : forall var key,
             override var key v = Return v
             \/ override var key v = Raise TypeError).
  { intros var key. unfold override. destruct var as [s|]; [|now left].
    destruct (truthy s); [right; apply Hset|now left]. }
  destruct (Hover (OPENROUTER_API_KEY env) "openrouter_api_key") as [->| ->];
    [|reflexivity].
  cbn [rbind].
  destruct (Hover (GROVE_CODER_WORKER_MODEL env) "worker_model") as [->| ->];
    [|reflexivity].
  cbn [rbind]. destruct v; try discriminate Hv; reflexivity.
Qed.

Lemma load_secrets_bad_file_witness :
  not_a_container VNone = true
  /\ load_secrets (Some (inl VNone)) example_environ = Raise TypeError.
Proof.
  split; [reflexivity|].
  exact (proj1 (load_secrets_bad_file VNone example_environ eq_refl)).
Defined.
